(** * HelloWorldAPI: request validation and error classification

    A shallow embedding of the validation layer
    ([src/lambda/utils/validation.ts]), of the type guards and error classes
    of [src/types], and of the error handler ([handleError],
    [createValidationError]), followed by the properties the specification
    states about them.

    Conventions of the embedding.
    - A JavaScript value is a term of [value]: the JSON data a request can
      carry, plus [undefined].  An object is its list of own properties in
      key-iteration order (the order of [Object.keys]); the prototype chain
      is not modelled, so reading a property that is not an own property
      gives [undefined].
    - A string is a Rocq [string]; its characters stand for UTF-16 code units
      below 256, which covers every literal of the source.
    - A number is [NaN], an infinity, or a finite rational; comparisons are
      the exact ones IEEE-754 doubles have.
    - The clock read by [new Date().toISOString()] is an explicit argument.
    - Console output is not modelled. *)

From Stdlib Require Import String Ascii List Bool Arith ZArith QArith Lia.
From Stdlib Require Import DecimalString.
Import ListNotations.

Close Scope Q_scope.
Open Scope string_scope.

(** ** JavaScript values *)

Inductive number : Type :=
| NaN
| Infinity (negative : bool)
| Finite (q : Q).

#[warnings="-register-all"]
Inductive value : Type :=
| Undefined
| Null
| Bool (b : bool)
| Num (n : number)
| Str (s : string)
| Arr (elements : list value)
| Obj (properties : list (string * value)).

Definition of_nat (n : nat) : number := Finite (inject_Z (Z.of_nat n)).
Definition of_Z (z : Z) : number := Finite (inject_Z z).

(** [a < b] on numbers: false as soon as one side is [NaN]. *)
Definition number_ltb (a b : number) : bool :=
  match a, b with
  | NaN, _ | _, NaN => false
  | Infinity na, Infinity nb => na && negb nb
  | Infinity na, Finite _ => na
  | Finite _, Infinity nb => negb nb
  | Finite p, Finite q => negb (Qle_bool q p)
  end.

Definition number_gtb (a b : number) : bool := number_ltb b a.

(** [ToBoolean] on a number: [0] and [NaN] are falsy. *)
Definition number_truthy (n : number) : bool :=
  match n with
  | NaN => false
  | Infinity _ => true
  | Finite q => negb (Qeq_bool q 0)
  end.

(** [ToBoolean] on a value. *)
Definition truthy (v : value) : bool :=
  match v with
  | Undefined | Null => false
  | Bool b => b
  | Num n => number_truthy n
  | Str s => negb (String.eqb s EmptyString)
  | Arr _ | Obj _ => true
  end.

(** SameValueZero, the comparison of [Array.prototype.includes].  Arrays
    and objects are compared by identity; a value taken from a request is a
    fresh object, never identical to an element of a rule's [enum], hence
    [false]. *)
Definition number_sameValueZero (a b : number) : bool :=
  match a, b with
  | NaN, NaN => true
  | Infinity na, Infinity nb => Bool.eqb na nb
  | Finite p, Finite q => Qeq_bool p q
  | _, _ => false
  end.

Definition sameValueZero (a b : value) : bool :=
  match a, b with
  | Undefined, Undefined => true
  | Null, Null => true
  | Bool x, Bool y => Bool.eqb x y
  | Num x, Num y => number_sameValueZero x y
  | Str x, Str y => String.eqb x y
  | _, _ => false
  end.

(** [arr.includes(v)] on an array of values, and on an array of strings. *)
Definition includes_value (arr : list value) (v : value) : bool :=
  existsb (fun e => sameValueZero e v) arr.

Definition includes_string (arr : list string) (s : string) : bool :=
  existsb (fun e => String.eqb e s) arr.

(** ** Strings *)

(** [s.includes(sub)]: [sub] occurs in [s] as a substring. *)
Fixpoint includes (s sub : string) : bool :=
  if prefix sub s then true
  else match s with
       | EmptyString => false
       | String _ rest => includes rest sub
       end.

(** White space removed by [String.prototype.trim], among code units below
    256: TAB, LF, VT, FF, CR, SPACE and NBSP. *)
Definition isWhiteSpace (c : ascii) : bool :=
  let n := nat_of_ascii c in
  ((n =? 9) || (n =? 10) || (n =? 11) || (n =? 12) || (n =? 13)
   || (n =? 32) || (n =? 160))%nat.

Fixpoint trimStart (s : string) : string :=
  match s with
  | EmptyString => EmptyString
  | String c rest => if isWhiteSpace c then trimStart rest else s
  end.

Fixpoint trimEnd (s : string) : string :=
  match s with
  | EmptyString => EmptyString
  | String c rest =>
      match trimEnd rest with
      | EmptyString => if isWhiteSpace c then EmptyString else String c EmptyString
      | kept => String c kept
      end
  end.

Definition trim (s : string) : string := trimEnd (trimStart s).

(** [arr.join(sep)] on an array of strings. *)
Definition join (sep : string) (arr : list string) : string :=
  String.concat sep arr.

(** Decimal numeral of an integer, as [Number.prototype.toString] prints an
    integer of magnitude below 10^21. *)
Definition decimal (z : Z) : string :=
  NilZero.string_of_int (Z.to_int z).

(** ** Type guards ([src/types]) *)

Definition isString (v : value) : bool :=
  match v with Str _ => true | _ => false end.

(** [typeof value === 'number' && !isNaN(value)] *)
Definition isNumber (v : value) : bool :=
  match v with
  | Num NaN => false
  | Num _ => true
  | _ => false
  end.

Definition isBoolean (v : value) : bool :=
  match v with Bool _ => true | _ => false end.

Definition isArray (v : value) : bool :=
  match v with Arr _ => true | _ => false end.

(** [typeof value === 'object' && value !== null && !Array.isArray(value)] *)
Definition isObject (v : value) : bool :=
  match v with Obj _ => true | _ => false end.

(** [value !== null && value !== undefined] *)
Definition isDefined (v : value) : bool :=
  match v with Undefined | Null => false | _ => true end.

(** [isString(value) && value.trim().length > 0] *)
Definition isNonEmptyString (v : value) : bool :=
  match v with
  | Str s => (0 <? String.length (trim s))%nat
  | _ => false
  end.

(** ** Validation types ([src/types]) *)

Record ValidationErrorDetail : Type := {
  err_field : string;
  err_message : string;
  err_value : value
}.

Record ValidationResult : Type := {
  isValid : bool;
  errors : list ValidationErrorDetail
}.

Inductive FieldType : Type := TString | TNumber | TBoolean | TArray | TObject.

Definition FieldType_name (t : FieldType) : string :=
  match t with
  | TString => "string"
  | TNumber => "number"
  | TBoolean => "boolean"
  | TArray => "array"
  | TObject => "object"
  end.

(** What a [custom] predicate returns: [boolean | string]. *)
Inductive CustomResult : Type :=
| CustomBool (b : bool)
| CustomString (s : string).

(** A rule; every member but [field] is optional, [None] being an absent
    member.  [pattern] is the [test] method of the rule's regular
    expression. *)
Record ValidationRule : Type := {
  rule_field : string;
  rule_required : option bool;
  rule_type : option FieldType;
  rule_minLength : option number;
  rule_maxLength : option number;
  rule_min : option number;
  rule_max : option number;
  rule_pattern : option (string -> bool);
  rule_enum : option (list value);
  rule_custom : option (value -> CustomResult)
}.

Record ValidationSchema : Type := {
  rules : list ValidationRule;
  strict : option bool
}.

(** Truthiness of an optional boolean member ([rule.required],
    [schema.strict]). *)
Definition flag (o : option bool) : bool :=
  match o with Some b => b | None => false end.

(** Own-property read [obj[key]] and [Object.keys(obj)].  A name that the
    object inherits and does not define (see [inheritedMember]) reads as
    [undefined] here; the fixed schemas of the validators name none. *)
Fixpoint lookup (properties : list (string * value)) (key : string) : value :=
  match properties with
  | [] => Undefined
  | (k, v) :: rest => if String.eqb k key then v else lookup rest key
  end.

Definition get (obj : value) (key : string) : value :=
  match obj with
  | Obj properties => lookup properties key
  | _ => Undefined
  end.

Definition Object_keys (obj : value) : list string :=
  match obj with
  | Obj properties => map fst properties
  | _ => []
  end.

(** ** Error taxonomy ([src/types]) *)

Record ApiError : Type := {
  error_name : string;
  error_statusCode : Z;
  error_errorCode : string;
  error_message : string
}.

(** A constructor's default parameter: used when the argument is omitted. *)
Definition default (d : string) (message : option string) : string :=
  match message with Some m => m | None => d end.

Definition ValidationError (message : option string) : ApiError :=
  {| error_name := "ValidationError"; error_statusCode := 400;
     error_errorCode := "VALIDATION_ERROR";
     error_message := default "Invalid input data" message |}.

Definition NotFoundError (message : option string) : ApiError :=
  {| error_name := "NotFoundError"; error_statusCode := 404;
     error_errorCode := "NOT_FOUND";
     error_message := default "Resource not found" message |}.

Definition InternalServerError (message : option string) : ApiError :=
  {| error_name := "InternalServerError"; error_statusCode := 500;
     error_errorCode := "INTERNAL_SERVER_ERROR";
     error_message := default "Internal server error" message |}.

Definition RateLimitError (message : option string) : ApiError :=
  {| error_name := "RateLimitError"; error_statusCode := 429;
     error_errorCode := "RATE_LIMIT_EXCEEDED";
     error_message := default "Rate limit exceeded" message |}.

Definition UnauthorizedError (message : option string) : ApiError :=
  {| error_name := "UnauthorizedError"; error_statusCode := 401;
     error_errorCode := "UNAUTHORIZED";
     error_message := default "Unauthorized access" message |}.

Definition ForbiddenError (message : option string) : ApiError :=
  {| error_name := "ForbiddenError"; error_statusCode := 403;
     error_errorCode := "FORBIDDEN";
     error_message := default "Access forbidden" message |}.

Definition BadRequestError (message : option string) : ApiError :=
  {| error_name := "BadRequestError"; error_statusCode := 400;
     error_errorCode := "BAD_REQUEST";
     error_message := default "Bad request" message |}.

Definition ConflictError (message : option string) : ApiError :=
  {| error_name := "ConflictError"; error_statusCode := 409;
     error_errorCode := "CONFLICT";
     error_message := default "Resource conflict" message |}.

(** The body of an error response, before serialisation. *)
Record ErrorResponseBody : Type := {
  body_success : bool;
  body_error : string;
  body_message : string;
  body_statusCode : Z;
  body_timestamp : string
}.

Record APIGatewayProxyResult : Type := {
  statusCode : Z;
  headers : list (string * string);
  body : string
}.

(** [JSON.stringify] on a string: the quotation mark and the reverse solidus
    are escaped, control characters print as their short escape or as a
    four-digit hexadecimal escape. *)
Definition dquote : string := String (ascii_of_nat 34) EmptyString.
Definition backslash : string := String (ascii_of_nat 92) EmptyString.

Definition hex_digit (n : nat) : string :=
  String (ascii_of_nat (if (n <? 10)%nat then 48 + n else 87 + n)) EmptyString.

Definition JSON_escape (c : ascii) : string :=
  let n := nat_of_ascii c in
  if (n =? 34)%nat then backslash ++ dquote
  else if (n =? 92)%nat then backslash ++ backslash
  else if (n =? 8)%nat then backslash ++ "b"
  else if (n =? 9)%nat then backslash ++ "t"
  else if (n =? 10)%nat then backslash ++ "n"
  else if (n =? 12)%nat then backslash ++ "f"
  else if (n =? 13)%nat then backslash ++ "r"
  else if (n <? 32)%nat
       then backslash ++ "u00" ++ hex_digit (n / 16) ++ hex_digit (n mod 16)
  else String c EmptyString.

Fixpoint JSON_escape_all (s : string) : string :=
  match s with
  | EmptyString => EmptyString
  | String c rest => JSON_escape c ++ JSON_escape_all rest
  end.

Definition JSON_string (s : string) : string :=
  dquote ++ JSON_escape_all s ++ dquote.

(** [JSON.stringify] on an error body: the members in the order of the
    object literal. *)
Definition JSON_stringify (b : ErrorResponseBody) : string :=
  "{" ++ JSON_string "success" ++ ":"
      ++ (if body_success b then "true" else "false")
  ++ "," ++ JSON_string "error" ++ ":" ++ JSON_string (body_error b)
  ++ "," ++ JSON_string "message" ++ ":" ++ JSON_string (body_message b)
  ++ "," ++ JSON_string "statusCode" ++ ":" ++ decimal (body_statusCode b)
  ++ "," ++ JSON_string "timestamp" ++ ":" ++ JSON_string (body_timestamp b)
  ++ "}".

(** [ApiError.toResponse]; [now] is [new Date().toISOString()]. *)
Definition toBody (now : string) (e : ApiError) : ErrorResponseBody :=
  {| body_success := false;
     body_error := error_errorCode e;
     body_message := error_message e;
     body_statusCode := error_statusCode e;
     body_timestamp := now |}.

Definition toResponse (now : string) (e : ApiError) : APIGatewayProxyResult :=
  {| statusCode := error_statusCode e;
     headers := [("Content-Type", "application/json");
                 ("Access-Control-Allow-Origin", "*")];
     body := JSON_stringify (toBody now e) |}.

(** ** Error handler *)

(** What a [catch] clause can receive: an instance of a subclass of
    [ApiError], an [Error] that is not an [ApiError], or any other value. *)
Inductive thrown : Type :=
| ThrownApiError (e : ApiError)
| ThrownError (message : string)
| ThrownValue (v : value).



Definition handleError (now : string) (error : thrown) : APIGatewayProxyResult :=
  match error with
  | ThrownApiError e => toResponse now e
  | ThrownError message =>
      if includes message "validation" || includes message "invalid" then
        toResponse now (ValidationError (Some message))
      else if includes message "not found" || includes message "does not exist" then
        toResponse now (NotFoundError (Some message))
      else if includes message "unauthorized" || includes message "authentication" then
        toResponse now (UnauthorizedError (Some message))
      else if includes message "forbidden" || includes message "permission" then
        toResponse now (ForbiddenError (Some message))
      else if includes message "conflict" || includes message "already exists" then
        toResponse now (ConflictError (Some message))
      else if includes message "rate limit" || includes message "throttle" then
        toResponse now (RateLimitError (Some message))
      else
        toResponse now
          (InternalServerError (Some ("Internal server error: " ++ message)))
  | ThrownValue _ =>
      toResponse now (InternalServerError (Some "An unexpected error occurred"))
  end.

(** [createValidationError]: only [field] and [message] of each detail are
    read. *)
Definition createValidationError (errors : list ValidationErrorDetail) : ApiError :=
  let messages := map (fun err => err_field err ++ ": " ++ err_message err) errors in
  ValidationError (Some ("Validation failed: " ++ join ", " messages)).

(** ** The taxonomy and the classification policy, as the specification
    words them *)

Inductive ErrorKind : Type :=
| Validation | NotFound | Internal | RateLimit
| Unauthorized | Forbidden | BadRequest | Conflict.

Definition make (kind : ErrorKind) (message : option string) : ApiError :=
  match kind with
  | Validation => ValidationError message
  | NotFound => NotFoundError message
  | Internal => InternalServerError message
  | RateLimit => RateLimitError message
  | Unauthorized => UnauthorizedError message
  | Forbidden => ForbiddenError message
  | BadRequest => BadRequestError message
  | Conflict => ConflictError message
  end.

Definition kind_status (kind : ErrorKind) : Z :=
  match kind with
  | Validation | BadRequest => 400
  | Unauthorized => 401
  | Forbidden => 403
  | NotFound => 404
  | Conflict => 409
  | RateLimit => 429
  | Internal => 500
  end.

(** The keyword rows of the policy, in priority order. *)
Definition keywordPriority : list (list string * ErrorKind) :=
  [ (["validation"; "invalid"], Validation);
    (["not found"; "does not exist"], NotFound);
    (["unauthorized"; "authentication"], Unauthorized);
    (["forbidden"; "permission"], Forbidden);
    (["conflict"; "already exists"], Conflict);
    (["rate limit"; "throttle"], RateLimit) ].

(** A row triggers when one of its keywords occurs in the inspected text. *)
Definition triggers (text : string) (row : list string * ErrorKind) : bool :=
  existsb (includes text) (fst row).

(** First-match classification of a message; [view] is what the policy
    inspects: the lowercase of the message in the specification's words. *)
Definition classifyKind (view : string -> string) (message : string) : ErrorKind :=
  match find (triggers (view message)) keywordPriority with
  | Some (_, kind) => kind
  | None => Internal
  end.

Definition classify (view : string -> string) (message : string) : ApiError :=
  match find (triggers (view message)) keywordPriority with
  | Some (_, kind) => make kind (Some message)
  | None => make Internal (Some ("Internal server error: " ++ message))
  end.

(** [String.prototype.toLowerCase] on code units below 256. *)
Definition lower (c : ascii) : ascii :=
  let n := nat_of_ascii c in
  if ((65 <=? n) && (n <=? 90))%nat then ascii_of_nat (n + 32)
  else if ((192 <=? n) && (n <=? 222) && negb (n =? 215))%nat
       then ascii_of_nat (n + 32)
  else c.

Fixpoint toLowerCase (s : string) : string :=
  match s with
  | EmptyString => EmptyString
  | String c rest => String (lower c) (toLowerCase rest)
  end.

(** The comma-joined ["field: message"] pairs of a list of details. *)
Fixpoint commaJoined (details : list ValidationErrorDetail) : string :=
  match details with
  | [] => EmptyString
  | d :: rest =>
      match rest with
      | [] => err_field d ++ ": " ++ err_message d
      | _ => err_field d ++ ": " ++ err_message d ++ ", " ++ commaJoined rest
      end
  end.

(** The runtime type of a present value, among the five a rule can name;
    [NaN] is a number. *)
Definition runtimeType (v : value) : option FieldType :=
  match v with
  | Undefined | Null => None
  | Bool _ => Some TBoolean
  | Num _ => Some TNumber
  | Str _ => Some TString
  | Arr _ => Some TArray
  | Obj _ => Some TObject
  end.

(** [errors.isEmpty()] *)
Definition isEmpty (errors : list ValidationErrorDetail) : bool :=
  match errors with [] => true | _ => false end.

(** ** Acceptance conditions of the fixed schemas

    What the create, update and id validators accept, written as
    predicates on the value of a member. *)

(** A string of at most [maxLength] code units that is not made of white
    space only. *)
Definition acceptableText (maxLength : Z) (v : value) : bool :=
  match v with
  | Str s =>
      (Z.of_nat (String.length s) <=? maxLength)%Z
      && (0 <? String.length (trim s))%nat
  | _ => false
  end.

(** One of the two status names. *)
Definition acceptableStatus (v : value) : bool :=
  match v with
  | Str s => String.eqb s "active" || String.eqb s "inactive"
  | _ => false
  end.

(** An optional member: absent ([undefined] or [null]), or acceptable. *)
Definition optional (ok : value -> bool) (v : value) : bool :=
  negb (isDefined v) || ok v.

(** A rule with other length bounds. *)
Definition withLengths (rule : ValidationRule) (minLength maxLength : option number) : ValidationRule :=
  {| rule_field := rule_field rule;
     rule_required := rule_required rule;
     rule_type := rule_type rule;
     rule_minLength := minLength;
     rule_maxLength := maxLength;
     rule_min := rule_min rule;
     rule_max := rule_max rule;
     rule_pattern := rule_pattern rule;
     rule_enum := rule_enum rule;
     rule_custom := rule_custom rule |}.

(** ** Request helpers *)

(** [s.split(',')]: the pieces between the commas; never an empty array. *)
Fixpoint split_comma (s : string) : list string :=
  match s with
  | EmptyString => [EmptyString]
  | String c rest =>
      if Ascii.eqb c ","%char then EmptyString :: split_comma rest
      else match split_comma rest with
           | piece :: pieces => String c piece :: pieces
           | [] => [String c EmptyString]
           end
  end.

(** [parseCommaSeparatedValues]; [None] is a [null] or [undefined]
    argument. *)
Definition parseCommaSeparatedValues (value : option string) : list string :=
  match value with
  | None => []
  | Some s =>
      if String.eqb s EmptyString then []
      else filter (fun v => (0 <? String.length v)%nat) (map trim (split_comma s))
  end.

(** A string that [trimStart] leaves alone: empty, or starting with a
    character that is not white space. *)
Definition startsClean (s : string) : bool :=
  match s with
  | EmptyString => true
  | String c _ => negb (isWhiteSpace c)
  end.

(** ** Completions

    A call either returns a value or throws; [Abrupt] carries the thrown
    value, as a [catch] clause receives it. *)

Inductive completion (A : Type) : Type :=
| Normal (a : A)
| Abrupt (error : thrown).

Arguments Normal {A} a.
Arguments Abrupt {A} error.

Definition bind {A B : Type} (c : completion A) (k : A -> completion B) : completion B :=
  match c with
  | Normal a => k a
  | Abrupt error => Abrupt error
  end.

Notation "x <- c ;; k" := (bind c (fun x => k))
  (at level 61, c at next level, right associativity).

(** ** More of the host language *)

(** [a <= b] and [a === b] on numbers; both are false on [NaN]. *)
Definition number_leb (a b : number) : bool :=
  match a, b with
  | NaN, _ | _, NaN => false
  | _, _ => negb (number_ltb b a)
  end.

Definition number_eqb (a b : number) : bool :=
  match a, b with
  | Infinity na, Infinity nb => Bool.eqb na nb
  | Finite p, Finite q => Qeq_bool p q
  | _, _ => false
  end.

(** [a + b] on numbers.  The sum of two finite numbers is the exact one;
    a double agrees with it on the integers below 2^53. *)
Definition number_add (a b : number) : number :=
  match a, b with
  | NaN, _ | _, NaN => NaN
  | Infinity na, Infinity nb => if Bool.eqb na nb then Infinity na else NaN
  | Infinity na, Finite _ => Infinity na
  | Finite _, Infinity nb => Infinity nb
  | Finite p, Finite q => Finite (Qplus p q)
  end.

(** [a * b] on numbers.  The product of two finite numbers is the exact
    one; a double agrees with it when one factor is a power of two and the
    product stays below 2^1024, which is the case of the delays of
    [retryWithBackoff]. *)
Definition number_mul (a b : number) : number :=
  match a, b with
  | NaN, _ | _, NaN => NaN
  | Infinity na, Infinity nb => Infinity (xorb na nb)
  | Infinity na, Finite q =>
      if Qeq_bool q 0 then NaN else Infinity (xorb na (Qnum q <? 0)%Z)
  | Finite p, Infinity nb =>
      if Qeq_bool p 0 then NaN else Infinity (xorb (Qnum p <? 0)%Z nb)
  | Finite p, Finite q => Finite (Qmult p q)
  end.

(** [Math.pow(2, k)] for a count [k]: a power of two, exact up to 2^1023,
    and [Infinity] beyond. *)
Definition Math_pow2 (k : nat) : number :=
  if (k <? 1024)%nat then of_Z (2 ^ Z.of_nat k) else Infinity false.

(** [a === b].  Objects and arrays are compared by identity, which the
    embedding cannot see; the handlers compare strings only. *)
Definition strictEquals (a b : value) : bool :=
  match a, b with
  | Undefined, Undefined => true
  | Null, Null => true
  | Bool x, Bool y => Bool.eqb x y
  | Num x, Num y => number_eqb x y
  | Str x, Str y => String.eqb x y
  | _, _ => false
  end.

(** Objects as member lists: [obj[key] = v] keeps the place of an existing
    key and appends a new one; [{...target, ...source}] sets the members of
    [source] one after the other. *)
Fixpoint set {A : Type} (members : list (string * A)) (key : string) (v : A)
    : list (string * A) :=
  match members with
  | [] => [(key, v)]
  | (k, old) :: rest =>
      if String.eqb k key then (key, v) :: rest
      else (k, old) :: set rest key v
  end.

Definition spread {A : Type} (target source : list (string * A)) : list (string * A) :=
  fold_left (fun members member => set members (fst member) (snd member))
    source target.

(** The member of a key, if any. *)
Fixpoint member {A : Type} (members : list (string * A)) (key : string) : option A :=
  match members with
  | [] => None
  | (k, v) :: rest => if String.eqb k key then Some v else member rest key
  end.

(** [arr.slice(start, end)]: each bound is truncated to an integer, counted
    from the end when negative, and clamped to the array. *)
Definition truncate (q : Q) : Z := Z.quot (Qnum q) (Zpos (Qden q)).

Definition relativeIndex (len : nat) (n : number) : nat :=
  match n with
  | NaN => 0
  | Infinity true => 0
  | Infinity false => len
  | Finite q =>
      let i := truncate q in
      if (i <? 0)%Z then Z.to_nat (Z.max (Z.of_nat len + i) 0)
      else Z.to_nat (Z.min i (Z.of_nat len))
  end.

Definition slice {A : Type} (arr : list A) (start finish : number) : list A :=
  let k := relativeIndex (List.length arr) start in
  let final := relativeIndex (List.length arr) finish in
  firstn (final - k) (skipn k arr).

(** [arr.findIndex(p)]; [None] is [-1]. *)
Fixpoint findIndex {A : Type} (p : A -> bool) (arr : list A) : option nat :=
  match arr with
  | [] => None
  | x :: rest =>
      if p x then Some 0
      else match findIndex p rest with
           | Some i => Some (S i)
           | None => None
           end
  end.

(** [arr.splice(index, 1)] and [arr[index] = v], on an index of the
    array. *)
Fixpoint removeAt {A : Type} (index : nat) (arr : list A) : list A :=
  match arr, index with
  | [], _ => []
  | _ :: rest, O => rest
  | x :: rest, S i => x :: removeAt i rest
  end.

Fixpoint replaceAt {A : Type} (index : nat) (v : A) (arr : list A) : list A :=
  match arr, index with
  | [], _ => []
  | _ :: rest, O => v :: rest
  | x :: rest, S i => x :: replaceAt i v rest
  end.

(** ** Error utilities *)

(** [assertExists(value, message)]; an omitted or empty [message] is
    replaced by the default text. *)
Definition assertExists (v : value) (message : option string) : completion unit :=
  if negb (isDefined v) then
    Abrupt (ThrownApiError
              (NotFoundError
                 (Some (match message with
                        | Some m => if String.eqb m EmptyString
                                    then "Resource not found" else m
                        | None => "Resource not found"
                        end))))
  else Normal tt.

(** The test of [retryWithBackoff] that ends the retries: an [ApiError]
    with a status in the 4xx range. *)
Definition isClientError (error : thrown) : bool :=
  match error with
  | ThrownApiError e =>
      (400 <=? error_statusCode e)%Z && (error_statusCode e <? 500)%Z
  | _ => false
  end.

(** What a run of [retryWithBackoff] does: its completion, the number of
    calls of [fn], and the sleeps it asked for, each one the delay handed to
    [setTimeout]. *)
Record RetryRun (A : Type) : Type := {
  retry_completion : completion A;
  retry_calls : nat;
  retry_sleeps : list number
}.

Arguments retry_completion {A} r.
Arguments retry_calls {A} r.
Arguments retry_sleeps {A} r.

(** The loop of [retryWithBackoff].  [fn k] is the outcome of the call of
    [fn] made after [k] earlier calls; [fuel] bounds the iterations, [None]
    being a loop that has not ended within it. *)
Fixpoint retryLoop {A : Type} (fn : nat -> completion A)
    (maxRetries baseDelay : number) (fuel attempt : nat) (lastError : thrown)
    (sleeps : list number) : option (RetryRun A) :=
  match fuel with
  | O => None
  | S fuel' =>
      if number_leb (of_nat attempt) maxRetries then
        match fn attempt with
        | Normal a =>
            Some {| retry_completion := Normal a;
                    retry_calls := S attempt;
                    retry_sleeps := sleeps |}
        | Abrupt error =>
            if isClientError error then
              Some {| retry_completion := Abrupt error;
                      retry_calls := S attempt;
                      retry_sleeps := sleeps |}
            else if number_eqb (of_nat attempt) maxRetries then
              Some {| retry_completion := Abrupt error;
                      retry_calls := S attempt;
                      retry_sleeps := sleeps |}
            else
              let delay := number_mul baseDelay (Math_pow2 attempt) in
              retryLoop fn maxRetries baseDelay fuel' (S attempt) error
                (sleeps ++ [delay])
        end
      else
        Some {| retry_completion := Abrupt lastError;
                retry_calls := attempt;
                retry_sleeps := sleeps |}
  end.

(** [retryWithBackoff(fn, maxRetries, baseDelay)]; the omitted arguments
    are [3] and [1000]; [lastError] starts as [undefined]. *)
Definition retryWithBackoff {A : Type} (fn : nat -> completion A)
    (maxRetries baseDelay : option number) (fuel : nat) : option (RetryRun A) :=
  retryLoop fn
    (match maxRetries with Some n => n | None => of_Z 3 end)
    (match baseDelay with Some d => d | None => of_Z 1000 end)
    fuel 0 (ThrownValue Undefined) [].

(** ** Response builders that need no serialisation ([response.ts]) *)

Definition DEFAULT_CORS_HEADERS : list (string * string) :=
  [ ("Access-Control-Allow-Origin", "*");
    ("Access-Control-Allow-Methods", "GET, POST, PUT, DELETE, OPTIONS");
    ("Access-Control-Allow-Headers", "Content-Type, Authorization, X-Requested-With");
    ("Access-Control-Max-Age", "86400") ].

Definition DEFAULT_HEADERS : list (string * string) :=
  spread [("Content-Type", "application/json")] DEFAULT_CORS_HEADERS.

Definition createNoContentResponse : APIGatewayProxyResult :=
  {| statusCode := 204; headers := DEFAULT_CORS_HEADERS; body := EmptyString |}.

Definition createOptionsResponse : APIGatewayProxyResult :=
  {| statusCode := 200; headers := DEFAULT_CORS_HEADERS; body := EmptyString |}.

(** ** Events and the item store *)

(** The parts of an API Gateway event the handlers read; [event_body] is
    [None] for [null]. *)
Record Event : Type := {
  httpMethod : string;
  pathParameters : value;
  queryStringParameters : value;
  event_body : option string
}.

Definition getPathParameters (event : Event) : value :=
  if truthy (pathParameters event) then pathParameters event else Null.

Definition getQueryParameters (event : Event) : value :=
  if truthy (queryStringParameters event) then queryStringParameters event else Null.

Definition isCorsPreflightRequest (event : Event) : bool :=
  String.eqb (httpMethod event) "OPTIONS".

Definition handleCorsPreflightRequest : APIGatewayProxyResult :=
  createOptionsResponse.

Definition Item (id name description status createdAt updatedAt : value) : value :=
  Obj [ ("id", id); ("name", name); ("description", description);
        ("status", status); ("createdAt", createdAt); ("updatedAt", updatedAt) ].

(** The store a cold start begins with. *)
Definition itemsStore : list value :=
  [ Item (Str "1") (Str "Sample Item 1") (Str "This is a sample item for testing")
      (Str "active") (Str "2024-01-01T00:00:00.000Z") (Str "2024-01-01T00:00:00.000Z");
    Item (Str "2") (Str "Sample Item 2") (Str "Another sample item")
      (Str "inactive") (Str "2024-01-02T00:00:00.000Z") (Str "2024-01-02T00:00:00.000Z");
    Item (Str "3") (Str "Sample Item 3") (Str "Third sample item")
      (Str "active") (Str "2024-01-03T00:00:00.000Z") (Str "2024-01-03T00:00:00.000Z") ].

(** The members copied by [{...v}]: those of an object; the handlers spread
    objects only. *)
Definition ownMembers (v : value) : list (string * value) :=
  match v with
  | Obj properties => properties
  | _ => []
  end.

(** An outcome after which [retryWithBackoff] goes on: a throw that is not
    a client error. *)
Definition retryable {A : Type} (c : completion A) : bool :=
  match c with
  | Normal _ => false
  | Abrupt error => negb (isClientError error)
  end.

(** The sleeps asked for before the call number [k]. *)
Definition sleepsBefore (baseDelay : number) (k : nat) : list number :=
  map (fun attempt => number_mul baseDelay (Math_pow2 attempt)) (seq 0 k).

(** The integers a double holds exactly, up to 2^53 in magnitude. *)
Definition safeInteger (z : Z) : Prop := (- 2 ^ 53 <= z <= 2 ^ 53)%Z.

(** The names every object inherits from [Object.prototype].  Reading one
    of them on an object that has no own member of that name gives the
    inherited member, which [lookup] does not model: a statement that reads
    the members named by arbitrary rules is made for rules whose field is
    none of these names. *)
Definition inheritedMember (key : string) : bool :=
  includes_string
    [ "constructor"; "toString"; "toLocaleString"; "valueOf";
      "hasOwnProperty"; "isPrototypeOf"; "propertyIsEnumerable";
      "__proto__"; "__defineGetter__"; "__defineSetter__";
      "__lookupGetter__"; "__lookupSetter__" ] key.

(** The rules none of which reads an inherited member: on their fields
    [lookup] is [data[rule.field]] for every plain object. *)
Definition ownFields (rs : list ValidationRule) : Prop :=
  forall rule, In rule rs -> inheritedMember (rule_field rule) = false.

(** ** Sample inputs

    The [age] rule of the schema exercised by the unit tests, and a
    placeholder for the number formatter. *)

Definition ageRule : ValidationRule :=
  {| rule_field := "age"; rule_required := Some false;
     rule_type := Some TNumber;
     rule_minLength := None; rule_maxLength := None;
     rule_min := Some (of_Z 0); rule_max := Some (of_Z 150);
     rule_pattern := None; rule_enum := None; rule_custom := None |}.

Definition sampleFormat : Q -> string := fun _ => "?".

Definition sampleNow : string := "2024-01-01T00:00:00.000Z".

(** Sample requests.  [sampleParse] reads the three sample texts and the
    text [null] as [JSON.parse] does, and takes every other text for
    malformed. *)
Definition sampleCreateRequest : value :=
  Obj [("name", Str "Widget"); ("description", Str "A widget")].

Definition sampleCreateText : string :=
  "{" ++ JSON_string "name" ++ ":" ++ JSON_string "Widget" ++ ","
  ++ JSON_string "description" ++ ":" ++ JSON_string "A widget" ++ "}".

Definition sampleUpdateRequest : value :=
  Obj [("status", Str "inactive")].

Definition sampleUpdateText : string :=
  "{" ++ JSON_string "status" ++ ":" ++ JSON_string "inactive" ++ "}".

Definition sampleInvalidRequest : value :=
  Obj [("name", Str EmptyString)].

Definition sampleInvalidText : string :=
  "{" ++ JSON_string "name" ++ ":" ++ JSON_string EmptyString ++ "}".

Definition sampleParse (text : string) : option value :=
  if String.eqb text sampleCreateText then Some sampleCreateRequest
  else if String.eqb text sampleUpdateText then Some sampleUpdateRequest
  else if String.eqb text sampleInvalidText then Some sampleInvalidRequest
  else if String.eqb text "null" then Some Null
  else None.

Definition sampleEvent (method : string) (id : option string)
    (body : option string) : Event :=
  {| httpMethod := method;
     pathParameters := match id with
                       | Some s => Obj [("id", Str s)]
                       | None => Null
                       end;
     queryStringParameters := Null;
     event_body := body |}.

(** The [name] rule of the schema exercised by the unit tests. *)
Definition nameRule : ValidationRule :=
  {| rule_field := "name"; rule_required := Some true;
     rule_type := Some TString;
     rule_minLength := Some (of_Z 1); rule_maxLength := Some (of_Z 100);
     rule_min := None; rule_max := None;
     rule_pattern := None; rule_enum := None; rule_custom := None |}.

(** A list request for the second active item. *)
Definition sampleListEvent : Event :=
  {| httpMethod := "GET";
     pathParameters := Null;
     queryStringParameters :=
       Obj [("limit", Str "1"); ("offset", Str "1"); ("status", Str "active")];
     event_body := None |}.

(** A function that fails twice with a server error, then returns. *)
Definition sampleCalls (k : nat) : completion nat :=
  if (k <? 2)%nat then Abrupt (ThrownApiError (InternalServerError None))
  else Normal k.

(** ** Conversions of the host language *)

Section Host.

(** [Number.prototype.toString] on a number that is not an integer of
    magnitude below 10^21: the shortest digit string that reads back as the
    same double.  It is a parameter of the development; no message of the
    fixed schemas reaches it. *)
Variable Number_toString_other : Q -> string.

Definition Number_toString (n : number) : string :=
  match n with
  | NaN => "NaN"
  | Infinity false => "Infinity"
  | Infinity true => "-Infinity"
  | Finite q =>
      let r := Qred q in
      if Pos.eqb (Qden r) 1 && (Z.abs (Qnum r) <? 10 ^ 21)%Z
      then decimal (Qnum r)
      else Number_toString_other q
  end.

(** [String(v)], the conversion behind template literals, [join] and
    [parseInt]. *)
Fixpoint ToString (v : value) : string :=
  match v with
  | Undefined => "undefined"
  | Null => "null"
  | Bool true => "true"
  | Bool false => "false"
  | Num n => Number_toString n
  | Str s => s
  | Arr elements =>
      join "," (map (fun e => match e with
                              | Undefined | Null => EmptyString
                              | _ => ToString e
                              end) elements)
  | Obj _ => "[object Object]"
  end.

(** [arr.join(sep)] on an array of values: [null] and [undefined] print as
    the empty string. *)
Definition join_values (sep : string) (arr : list value) : string :=
  join sep (map (fun e => match e with
                          | Undefined | Null => EmptyString
                          | _ => ToString e
                          end) arr).

(** [parseInt(s, 10)]: leading white space, an optional sign, then the
    longest run of decimal digits; [None] stands for [NaN].  The result is
    the exact integer, which is the double the host returns up to 2^53 in
    magnitude (see [safeInteger]); beyond, the host rounds it.  The
    comparisons made on it by the list-query schema (against 0 and 100)
    are unchanged by that rounding. *)
Definition digit_of (c : ascii) : option Z :=
  let n := nat_of_ascii c in
  if ((48 <=? n) && (n <=? 57))%nat then Some (Z.of_nat (n - 48)) else None.

Fixpoint parse_digits (s : string) (acc : option Z) : option Z :=
  match s with
  | EmptyString => acc
  | String c rest =>
      match digit_of c with
      | Some d =>
          parse_digits rest
            (Some (10 * match acc with Some a => a | None => 0 end + d)%Z)
      | None => acc
      end
  end.

Definition parseInt (v : value) : option Z :=
  let s := trimStart (ToString v) in
  let '(negative, digits) :=
    match s with
    | String "-" rest => (true, rest)
    | String "+" rest => (false, rest)
    | _ => (false, s)
    end in
  match parse_digits digits None with
  | Some n => Some (if negative then (- n)%Z else n)
  | None => None
  end.

(** ** Field validator ([validateField]) *)

Definition detail (field message : string) (v : value) : ValidationErrorDetail :=
  {| err_field := field; err_message := message; err_value := v |}.

(** The [switch] on [rule.type]. *)
Definition isValidType (t : FieldType) (v : value) : bool :=
  match t with
  | TString => isString v
  | TNumber => isNumber v
  | TBoolean => isBoolean v
  | TArray => isArray v
  | TObject => isObject v
  end.

(** The block guarded by [isString(value)]: [minLength], [maxLength] and
    [pattern], each pushing its own error. *)
Definition stringChecks (v : value) (rule : ValidationRule) : list ValidationErrorDetail :=
  match v with
  | Str s =>
      (match rule_minLength rule with
       | Some m =>
           if number_truthy m && number_ltb (of_nat (String.length s)) m
           then [detail (rule_field rule)
                   (rule_field rule ++ " must be at least " ++ Number_toString m
                    ++ " characters long") v]
           else []
       | None => []
       end)
      ++
      (match rule_maxLength rule with
       | Some m =>
           if number_truthy m && number_gtb (of_nat (String.length s)) m
           then [detail (rule_field rule)
                   (rule_field rule ++ " must be no more than " ++ Number_toString m
                    ++ " characters long") v]
           else []
       | None => []
       end)
      ++
      (match rule_pattern rule with
       | Some test =>
           if negb (test s)
           then [detail (rule_field rule) (rule_field rule ++ " format is invalid") v]
           else []
       | None => []
       end)
  | _ => []
  end.

(** The block guarded by [isNumber(value)]: [min] and [max]. *)
Definition numberChecks (v : value) (rule : ValidationRule) : list ValidationErrorDetail :=
  match v with
  | Num n =>
      if isNumber v then
        (match rule_min rule with
         | Some m =>
             if number_ltb n m
             then [detail (rule_field rule)
                     (rule_field rule ++ " must be at least " ++ Number_toString m) v]
             else []
         | None => []
         end)
        ++
        (match rule_max rule with
         | Some m =>
             if number_gtb n m
             then [detail (rule_field rule)
                     (rule_field rule ++ " must be no more than " ++ Number_toString m) v]
             else []
         | None => []
         end)
      else []
  | _ => []
  end.

Definition enumCheck (v : value) (rule : ValidationRule) : list ValidationErrorDetail :=
  match rule_enum rule with
  | Some allowed =>
      if negb (includes_value allowed v)
      then [detail (rule_field rule)
              (rule_field rule ++ " must be one of: " ++ join_values ", " allowed) v]
      else []
  | None => []
  end.

Definition customCheck (v : value) (rule : ValidationRule) : list ValidationErrorDetail :=
  match rule_custom rule with
  | Some custom =>
      match custom v with
      | CustomBool true => []
      | CustomBool false =>
          [detail (rule_field rule) (rule_field rule ++ " is invalid") v]
      | CustomString customResult =>
          [detail (rule_field rule) customResult v]
      end
  | None => []
  end.

Definition typeError (v : value) (rule : ValidationRule) (t : FieldType) : ValidationErrorDetail :=
  detail (rule_field rule)
    (rule_field rule ++ " must be of type " ++ FieldType_name t) v.

Definition validateField (v : value) (rule : ValidationRule) : list ValidationErrorDetail :=
  if flag (rule_required rule) && negb (isDefined v) then
    [detail (rule_field rule) (rule_field rule ++ " is required") v]
  else if negb (flag (rule_required rule)) && negb (isDefined v) then
    []
  else
    match rule_type rule with
    | Some t =>
        if negb (isValidType t v) then [typeError v rule t]
        else stringChecks v rule ++ numberChecks v rule
             ++ enumCheck v rule ++ customCheck v rule
    | None =>
        stringChecks v rule ++ numberChecks v rule
        ++ enumCheck v rule ++ customCheck v rule
    end.

(** ** Schema validator ([validateSchema]) *)

Definition rootError (data : value) : ValidationErrorDetail :=
  detail "root" "Data must be an object" data.

Definition unknownError (data : value) (field : string) : ValidationErrorDetail :=
  detail field ("Unknown field: " ++ field) (get data field).

(** The loop over [schema.rules]: each rule's errors are pushed after the
    ones accumulated so far. *)
Definition ruleErrors (data : value) (schema : ValidationSchema) : list ValidationErrorDetail :=
  fold_left
    (fun (errors : list ValidationErrorDetail) rule =>
       (errors ++ validateField (get data (rule_field rule)) rule)%list)
    (rules schema) [].

Definition unknownFields (data : value) (schema : ValidationSchema) : list string :=
  let allowedFields := map rule_field (rules schema) in
  let providedFields := Object_keys data in
  filter (fun field => negb (includes_string allowedFields field)) providedFields.

Definition validateSchema (data : value) (schema : ValidationSchema) : ValidationResult :=
  if negb (isObject data) then
    {| isValid := false; errors := [rootError data] |}
  else
    let errors := ruleErrors data schema in
    let errors :=
      if flag (strict schema)
      then (errors ++ map (unknownError data) (unknownFields data schema))%list
      else errors in
    {| isValid := (List.length errors =? 0)%nat; errors := errors |}.

(** ** Domain validators *)

(** [c || message]: [true] when the condition holds, the message otherwise. *)
Definition orMessage (c : bool) (message : string) : CustomResult :=
  if c then CustomBool true else CustomString message.

Definition createItemSchema : ValidationSchema :=
  {| rules :=
       [ {| rule_field := "name"; rule_required := Some true;
            rule_type := Some TString;
            rule_minLength := Some (of_Z 1); rule_maxLength := Some (of_Z 100);
            rule_min := None; rule_max := None; rule_pattern := None;
            rule_enum := None;
            rule_custom := Some (fun v =>
              orMessage (isNonEmptyString v) "Name cannot be empty") |};
         {| rule_field := "description"; rule_required := Some true;
            rule_type := Some TString;
            rule_minLength := Some (of_Z 1); rule_maxLength := Some (of_Z 500);
            rule_min := None; rule_max := None; rule_pattern := None;
            rule_enum := None;
            rule_custom := Some (fun v =>
              orMessage (isNonEmptyString v) "Description cannot be empty") |} ];
     strict := Some true |}.

Definition validateCreateItemRequest (data : value) : ValidationResult :=
  validateSchema data createItemSchema.

Definition updateItemSchema : ValidationSchema :=
  {| rules :=
       [ {| rule_field := "name"; rule_required := Some false;
            rule_type := Some TString;
            rule_minLength := Some (of_Z 1); rule_maxLength := Some (of_Z 100);
            rule_min := None; rule_max := None; rule_pattern := None;
            rule_enum := None;
            rule_custom := Some (fun v =>
              orMessage (negb (isDefined v) || isNonEmptyString v)
                "Name cannot be empty") |};
         {| rule_field := "description"; rule_required := Some false;
            rule_type := Some TString;
            rule_minLength := Some (of_Z 1); rule_maxLength := Some (of_Z 500);
            rule_min := None; rule_max := None; rule_pattern := None;
            rule_enum := None;
            rule_custom := Some (fun v =>
              orMessage (negb (isDefined v) || isNonEmptyString v)
                "Description cannot be empty") |};
         {| rule_field := "status"; rule_required := Some false;
            rule_type := Some TString;
            rule_minLength := None; rule_maxLength := None;
            rule_min := None; rule_max := None; rule_pattern := None;
            rule_enum := Some [Str "active"; Str "inactive"];
            rule_custom := None |} ];
     strict := Some true |}.

Definition validateUpdateItemRequest (data : value) : ValidationResult :=
  validateSchema data updateItemSchema.

Definition validateItemId (id : value) : ValidationResult :=
  let errors :=
    if negb (isDefined id) then [detail "id" "Item ID is required" id]
    else if negb (isString id) then [detail "id" "Item ID must be a string" id]
    else if negb (isNonEmptyString id) then [detail "id" "Item ID cannot be empty" id]
    else [] in
  {| isValid := (List.length errors =? 0)%nat; errors := errors |}.

(** The two [custom] predicates of the list-query schema; [num] is
    [parseInt(value, 10)], [None] when it is [NaN]. *)
Definition limitCustom (v : value) : CustomResult :=
  if negb (isDefined v) then CustomBool true
  else
    let num := parseInt v in
    orMessage (match num with
               | Some n => (0 <? n)%Z && (n <=? 100)%Z
               | None => false
               end)
      "Limit must be a number between 1 and 100".

Definition offsetCustom (v : value) : CustomResult :=
  if negb (isDefined v) then CustomBool true
  else
    let num := parseInt v in
    orMessage (match num with
               | Some n => (0 <=? n)%Z
               | None => false
               end)
      "Offset must be a non-negative number".

Definition listQuerySchema : ValidationSchema :=
  {| rules :=
       [ {| rule_field := "limit"; rule_required := Some false;
            rule_type := Some TString;
            rule_minLength := None; rule_maxLength := None;
            rule_min := None; rule_max := None; rule_pattern := None;
            rule_enum := None; rule_custom := Some limitCustom |};
         {| rule_field := "offset"; rule_required := Some false;
            rule_type := Some TString;
            rule_minLength := None; rule_maxLength := None;
            rule_min := None; rule_max := None; rule_pattern := None;
            rule_enum := None; rule_custom := Some offsetCustom |};
         {| rule_field := "status"; rule_required := Some false;
            rule_type := Some TString;
            rule_minLength := None; rule_maxLength := None;
            rule_min := None; rule_max := None; rule_pattern := None;
            rule_enum := Some [Str "active"; Str "inactive"];
            rule_custom := None |} ];
     strict := Some false |}.

(** [params || {}] replaces every falsy argument by the empty object. *)
Definition validateListQueryParams (params : value) : ValidationResult :=
  validateSchema (if truthy params then params else Obj []) listQuerySchema.

(** ** Request helpers that parse numbers *)

(** [parseInteger(value, defaultValue, min, max)]; an omitted
    [defaultValue] is [0]. *)
Definition parseInteger (v : value) (defaultValue : option number)
    (min max : option number) : number :=
  let defaultValue := match defaultValue with Some d => d | None => of_Z 0 end in
  if negb (truthy v) then defaultValue
  else
    match parseInt v with
    | None => defaultValue
    | Some p =>
        let parsed := of_Z p in
        let afterMin :=
          match max with
          | Some M => if number_gtb parsed M then M else parsed
          | None => parsed
          end in
        match min with
        | Some m => if number_ltb parsed m then m else afterMin
        | None => afterMin
        end
    end.

(** What the list-query schema accepts as [limit] and as [offset]: a string
    whose leading integer is in range. *)
Definition acceptableLimit (v : value) : bool :=
  match v with
  | Str _ =>
      match parseInt v with
      | Some n => (0 <? n)%Z && (n <=? 100)%Z
      | None => false
      end
  | _ => false
  end.

Definition acceptableOffset (v : value) : bool :=
  match v with
  | Str _ =>
      match parseInt v with
      | Some n => (0 <=? n)%Z
      | None => false
      end
  | _ => false
  end.

(** ** Serialisation and response builders ([response.ts]) *)

(** [JSON.stringify(v)]: [None] is the [undefined] it returns for
    [undefined]; a member whose value is [undefined] is left out of an
    object and printed [null] in an array; [NaN] and the infinities print
    [null]. *)
Fixpoint JSON_stringify_value (v : value) : option string :=
  match v with
  | Undefined => None
  | Null => Some "null"
  | Bool true => Some "true"
  | Bool false => Some "false"
  | Num (Finite q) => Some (Number_toString (Finite q))
  | Num _ => Some "null"
  | Str s => Some (JSON_string s)
  | Arr elements =>
      Some ("[" ++ join ","
                     (map (fun e => match JSON_stringify_value e with
                                    | Some text => text
                                    | None => "null"
                                    end) elements)
            ++ "]")
  | Obj properties =>
      Some ("{" ++ join ","
                     (flat_map (fun property =>
                                  match JSON_stringify_value (snd property) with
                                  | Some text =>
                                      [JSON_string (fst property) ++ ":" ++ text]
                                  | None => []
                                  end) properties)
            ++ "}")
  end.

(** [JSON.stringify] on an object literal, which always gives a string. *)
Definition JSON_stringify_object (members : list (string * value)) : string :=
  match JSON_stringify_value (Obj members) with
  | Some text => text
  | None => EmptyString
  end.

(** The body handed to [createResponse]: a string, passed as it is, or an
    object literal, serialised.  The builders and the handlers pass object
    literals only. *)
Inductive ResponseBody : Type :=
| TextBody (text : string)
| ObjectBody (members : list (string * value)).

Definition createResponse (status : Z) (payload : ResponseBody)
    (extraHeaders : list (string * string)) : APIGatewayProxyResult :=
  {| statusCode := status;
     headers := spread DEFAULT_HEADERS extraHeaders;
     body := match payload with
             | TextBody text => text
             | ObjectBody members => JSON_stringify_object members
             end |}.

(** A present, non-empty string: what [message && { message }] spreads. *)
Definition messageMember (message : option string) : list (string * value) :=
  match message with
  | Some m => if String.eqb m EmptyString then [] else [("message", Str m)]
  | None => []
  end.

(** [createSuccessResponse(data, message, statusCode)]; an omitted status is
    [200]. *)
Definition createSuccessResponse (data : value) (message : option string)
    (status : option Z) : APIGatewayProxyResult :=
  let response :=
    spread [("success", Bool true); ("data", data)] (messageMember message) in
  createResponse (match status with Some code => code | None => 200%Z end)
    (ObjectBody response) [].

(** [createErrorResponse(error, message, statusCode)]; an omitted status is
    [500]. *)
Definition createErrorResponse (error message : string) (status : option Z)
    : APIGatewayProxyResult :=
  createResponse (match status with Some code => code | None => 500%Z end)
    (ObjectBody [("success", Bool false); ("error", Str error);
                 ("message", Str message)]) [].

Definition createCreatedResponse (data : value) (message : option string)
    : APIGatewayProxyResult :=
  createSuccessResponse data message (Some 201%Z).

(** ** Request body *)

(** [JSON.parse], a parameter of the development; [None] is the
    [SyntaxError] it throws. *)
Variable JSON_parse : string -> option value.

(** [parseAndValidateJson(body)]: the pair of [data] and [error]. *)
Definition parseAndValidateJson (body : option string) : value * option string :=
  match body with
  | None => (Null, Some "Request body is required")
  | Some text =>
      if String.eqb text EmptyString then (Null, Some "Request body is required")
      else match JSON_parse text with
           | Some data => (data, None)
           | None => (Null, Some "Invalid JSON format")
           end
  end.

Definition getJsonBody (event : Event) : completion value :=
  match event_body event with
  | None => Normal Null
  | Some text =>
      if String.eqb text EmptyString then Normal Null
      else
        let '(data, error) := parseAndValidateJson (event_body event) in
        match error with
        | Some e =>
            if String.eqb e EmptyString then Normal data
            else Abrupt (ThrownError e)
        | None => Normal data
        end
  end.

(** ** Handlers ([handlers/items.ts])

    A handler takes the event and the store and returns the response and
    the store it leaves.  The clock readings are arguments: [now] stamps an
    error response, [createdAt] and [updatedAt] stamp an item.  The [catch]
    clause of a handler turns what its [try] block throws into the response
    of [handleError], the store being as it was: every [throw] comes before
    the store is touched. *)

Definition handled (now : string) (store : list value)
    (c : completion (APIGatewayProxyResult * list value))
    : APIGatewayProxyResult * list value :=
  match c with
  | Normal result => result
  | Abrupt error => (handleError now error, store)
  end.

(** The check shared by the handlers of one item: path parameters present,
    [id] valid. *)
Definition itemIdOf (event : Event) : completion value :=
  let pathParams := getPathParameters event in
  _ <- assertExists pathParams (Some "Path parameters are required") ;;
  let validationResult := validateItemId (get pathParams "id") in
  if negb (isValid validationResult) then
    Abrupt (ThrownApiError (createValidationError (errors validationResult)))
  else Normal (get pathParams "id").

Definition hasId (itemId : value) (item : value) : bool :=
  strictEquals (get item "id") itemId.

Definition itemNotFound (itemId : value) : thrown :=
  ThrownApiError
    (NotFoundError (Some ("Item with ID " ++ ToString itemId ++ " not found"))).

Definition listItems (now : string) (event : Event) (store : list value)
    : APIGatewayProxyResult * list value :=
  handled now store
    (if isCorsPreflightRequest event then Normal (handleCorsPreflightRequest, store)
     else
       let queryParams := getQueryParameters event in
       let validationResult := validateListQueryParams queryParams in
       if negb (isValid validationResult) then
         Abrupt (ThrownApiError (createValidationError (errors validationResult)))
       else
         let limit := parseInteger (get queryParams "limit")
                        (Some (of_Z 10)) (Some (of_Z 1)) (Some (of_Z 100)) in
         let offset := parseInteger (get queryParams "offset")
                         (Some (of_Z 0)) (Some (of_Z 0)) None in
         let statusFilter := get queryParams "status" in
         let filteredItems :=
           if truthy statusFilter
           then filter (fun item => strictEquals (get item "status") statusFilter) store
           else store in
         let paginatedItems := slice filteredItems offset (number_add offset limit) in
         Normal (createSuccessResponse (Arr paginatedItems)
                   (Some "Items retrieved successfully") None,
                 store)).

Definition getItem (now : string) (event : Event) (store : list value)
    : APIGatewayProxyResult * list value :=
  handled now store
    (if isCorsPreflightRequest event then Normal (handleCorsPreflightRequest, store)
     else
       itemId <- itemIdOf event ;;
       match find (hasId itemId) store with
       | Some item =>
           if negb (truthy item) then Abrupt (itemNotFound itemId)
           else Normal (createSuccessResponse item
                          (Some "Item retrieved successfully") None,
                        store)
       | None => Abrupt (itemNotFound itemId)
       end).

Definition createItem (createdAt updatedAt now : string) (event : Event)
    (store : list value) : APIGatewayProxyResult * list value :=
  handled now store
    (if isCorsPreflightRequest event then Normal (handleCorsPreflightRequest, store)
     else
       requestBody <- getJsonBody event ;;
       _ <- assertExists requestBody (Some "Request body is required") ;;
       let validationResult := validateCreateItemRequest requestBody in
       if negb (isValid validationResult) then
         Abrupt (ThrownApiError (createValidationError (errors validationResult)))
       else
         let newItem :=
           Item (Str (Number_toString (of_nat (List.length store + 1))))
             (get requestBody "name") (get requestBody "description")
             (Str "active") (Str createdAt) (Str updatedAt) in
         Normal (createSuccessResponse newItem
                   (Some "Item created successfully") (Some 201%Z),
                 (store ++ [newItem])%list)).

(** The object literal of [updateItem]: the existing item, then the members
    of the request that are not [undefined], then the new [updatedAt]. *)
Definition updatedItemOf (existingItem requestBody : value) (updatedAt : string)
    : value :=
  let copy (key : string) (members : list (string * value)) :=
    if negb (strictEquals (get requestBody key) Undefined)
    then set members key (get requestBody key)
    else members in
  Obj (set (copy "status" (copy "description" (copy "name" (ownMembers existingItem))))
         "updatedAt" (Str updatedAt)).

Definition updateItem (updatedAt now : string) (event : Event)
    (store : list value) : APIGatewayProxyResult * list value :=
  handled now store
    (if isCorsPreflightRequest event then Normal (handleCorsPreflightRequest, store)
     else
       itemId <- itemIdOf event ;;
       requestBody <- getJsonBody event ;;
       _ <- assertExists requestBody (Some "Request body is required") ;;
       let bodyValidationResult := validateUpdateItemRequest requestBody in
       if negb (isValid bodyValidationResult) then
         Abrupt (ThrownApiError (createValidationError (errors bodyValidationResult)))
       else
         match findIndex (hasId itemId) store with
         | None => Abrupt (itemNotFound itemId)
         | Some itemIndex =>
             let existingItem := nth itemIndex store Undefined in
             let updatedItem := updatedItemOf existingItem requestBody updatedAt in
             Normal (createSuccessResponse updatedItem
                       (Some "Item updated successfully") None,
                     replaceAt itemIndex updatedItem store)
         end).

Definition deleteItem (now : string) (event : Event) (store : list value)
    : APIGatewayProxyResult * list value :=
  handled now store
    (if isCorsPreflightRequest event then Normal (handleCorsPreflightRequest, store)
     else
       itemId <- itemIdOf event ;;
       match findIndex (hasId itemId) store with
       | None => Abrupt (itemNotFound itemId)
       | Some itemIndex =>
           Normal (createSuccessResponse (Obj [("id", itemId)])
                     (Some "Item deleted successfully") None,
                   removeAt itemIndex store)
       end).

(** The page that [listItems] serves for a bag of query parameters: the
    parsed [limit] clamped into 1..100, 10 when there is none, and the
    parsed [offset], at least 0. *)
Definition pageLimit (queryParams : value) : Z :=
  match (if truthy (get queryParams "limit")
         then parseInt (get queryParams "limit") else None) with
  | Some p => Z.max 1 (Z.min p 100)
  | None => 10
  end.

Definition pageOffset (queryParams : value) : Z :=
  match (if truthy (get queryParams "offset")
         then parseInt (get queryParams "offset") else None) with
  | Some p => Z.max 0 p
  | None => 0
  end.

(** * Properties *)

(** ** Auxiliary facts *)

Lemma fold_left_app_flat_map :
  forall (A B : Type) (f : A -> list B) (l : list A) (acc : list B),
    fold_left (fun errors x => (errors ++ f x)%list) l acc
    = (acc ++ flat_map f l)%list.
Proof.
  intros A B f l; induction l as [| x l IH]; intros acc; simpl.
  - now rewrite app_nil_r.
  - rewrite IH. now rewrite <- app_assoc.
Qed.

Lemma ruleErrors_flat_map :
  forall data schema,
    ruleErrors data schema
    = flat_map (fun rule => validateField (get data (rule_field rule)) rule)
        (rules schema).
Proof.
  intros data schema. unfold ruleErrors.
  now rewrite fold_left_app_flat_map.
Qed.

Lemma includes_string_In :
  forall (arr : list string) (s : string),
    includes_string arr s = true <-> In s arr.
Proof.
  intros arr s. unfold includes_string. rewrite existsb_exists. split.
  - intros [e [Hin Heq]]. apply String.eqb_eq in Heq. now subst.
  - intros Hin. exists s. split; [assumption | apply String.eqb_refl].
Qed.

Lemma isObject_false_iff :
  forall data, isObject data = false <-> forall properties, data <> Obj properties.
Proof.
  intros data; split.
  - intros H properties ->. discriminate H.
  - intros H. destruct data; try reflexivity. now elim (H properties).
Qed.

Lemma length_zero_isEmpty :
  forall errors : list ValidationErrorDetail,
    (List.length errors =? 0)%nat = isEmpty errors.
Proof. now intros [| d errors]. Qed.

Lemma validateSchema_isValid :
  forall data schema,
    isValid (validateSchema data schema)
    = isEmpty (errors (validateSchema data schema)).
Proof.
  intros data schema. unfold validateSchema.
  destruct (isObject data); simpl.
  - apply length_zero_isEmpty.
  - reflexivity.
Qed.

(** ** The field validator *)

(** A guard of [isValidType] accepts a value only when its runtime type is
    the type named. *)
Lemma isValidType_runtimeType :
  forall (t : FieldType) (v : value),
    isValidType t v = true -> runtimeType v = Some t.
Proof.
  intros t v H. destruct t, v; try discriminate H; reflexivity.
Qed.

(** The early return of the type check. *)
Lemma validateField_type_guard :
  forall (v : value) (rule : ValidationRule) (t : FieldType),
    isDefined v = true ->
    rule_type rule = Some t ->
    isValidType t v = false ->
    validateField v rule = [typeError v rule t].
Proof.
  intros v rule t Hdef Htype Hguard. unfold validateField.
  rewrite Hdef, Htype, Hguard. simpl.
  now rewrite !andb_false_r.
Qed.

(** [NaN] has runtime type number, yet the guard of [number] refuses it. *)
Remark validateField_NaN :
  forall rule : ValidationRule,
    rule_type rule = Some TNumber ->
    validateField (Num NaN) rule = [typeError (Num NaN) rule TNumber].
Proof.
  intros rule Htype. now apply validateField_type_guard.
Qed.

(** C4.  When a rule names a type and the runtime type of a present value is
    another one, [validateField] returns the type-mismatch error alone; the
    length, pattern, range, enum and custom constraints are never consulted:
    whatever they are, the result is the same. *)
Theorem validateField_type_mismatch :
  forall (v : value) (rule : ValidationRule) (t : FieldType),
    isDefined v = true ->
    rule_type rule = Some t ->
    runtimeType v <> Some t ->
    validateField v rule
    = [ {| err_field := rule_field rule;
           err_message := rule_field rule ++ " must be of type " ++ FieldType_name t;
           err_value := v |} ]
    /\ forall rule' : ValidationRule,
         rule_field rule' = rule_field rule ->
         rule_required rule' = rule_required rule ->
         rule_type rule' = rule_type rule ->
         validateField v rule' = validateField v rule.
Proof.
  intros v rule t Hdef Htype Hruntime.
  assert (Hguard : isValidType t v = false).
  { destruct (isValidType t v) eqn:E; [| reflexivity].
    elim Hruntime. now apply isValidType_runtimeType. }
  split.
  - now apply validateField_type_guard.
  - intros rule' Hfield Hreq Hty.
    rewrite (validateField_type_guard v rule t),
            (validateField_type_guard v rule' t) by congruence.
    unfold typeError. now rewrite Hfield.
Qed.

(** ** The schema validator *)

(** C5.  [isValid] is exactly [errors.isEmpty()], for [validateSchema], for
    [validateItemId] and for the three validators built on
    [validateSchema]. *)
Theorem isValid_is_errors_isEmpty :
  (forall data schema,
      isValid (validateSchema data schema)
      = isEmpty (errors (validateSchema data schema)))
  /\ (forall id,
         isValid (validateItemId id) = isEmpty (errors (validateItemId id)))
  /\ (forall data,
         isValid (validateCreateItemRequest data)
         = isEmpty (errors (validateCreateItemRequest data)))
  /\ (forall data,
         isValid (validateUpdateItemRequest data)
         = isEmpty (errors (validateUpdateItemRequest data)))
  /\ (forall params,
         isValid (validateListQueryParams params)
         = isEmpty (errors (validateListQueryParams params))).
Proof.
  repeat split; intros.
  - apply validateSchema_isValid.
  - unfold validateItemId. simpl. apply length_zero_isEmpty.
  - apply validateSchema_isValid.
  - apply validateSchema_isValid.
  - apply validateSchema_isValid.
Qed.

(** C6.  A value that is not a structured object is rejected with the single
    root-level error, whatever the schema: none of its rules is looked at. *)
Theorem validateSchema_not_object :
  forall (data : value) (schema : ValidationSchema),
    isObject data = false ->
    validateSchema data schema
    = {| isValid := false;
         errors := [ {| err_field := "root";
                        err_message := "Data must be an object";
                        err_value := data |} ] |}
    /\ forall schema', validateSchema data schema' = validateSchema data schema.
Proof.
  intros data schema Hobj. unfold validateSchema. rewrite Hobj. simpl.
  split; [reflexivity | intros schema'; reflexivity].
Qed.

(** C7.  In strict mode the errors of an object are the errors the rules
    produce (those the same schema gives without strict mode), followed by
    one [Unknown field] error for each key that no rule names, in key
    order; when no rule names an inherited member, the errors of the rules
    are those of [validateField] on the own members, in rule order; the
    create validator reports an extra member that way. *)
Theorem validateSchema_strict_unknown_fields :
  (forall (properties : list (string * value)) (rs : list ValidationRule),
      errors (validateSchema (Obj properties) {| rules := rs; strict := Some true |})
      = (errors (validateSchema (Obj properties)
                   {| rules := rs; strict := Some false |})
         ++ map (fun key => {| err_field := key;
                               err_message := "Unknown field: " ++ key;
                               err_value := lookup properties key |})
              (filter (fun key => if in_dec string_dec key (map rule_field rs)
                                  then false else true)
                 (map fst properties)))%list)
  /\ (forall (properties : list (string * value)) (rs : list ValidationRule),
         ownFields rs ->
         errors (validateSchema (Obj properties) {| rules := rs; strict := Some true |})
         = (flat_map (fun rule => validateField (lookup properties (rule_field rule)) rule) rs
            ++ map (fun key => {| err_field := key;
                                  err_message := "Unknown field: " ++ key;
                                  err_value := lookup properties key |})
                 (filter (fun key => if in_dec string_dec key (map rule_field rs)
                                     then false else true)
                    (map fst properties)))%list)
  /\ validateCreateItemRequest
       (Obj [("name", Str "a"); ("description", Str "b"); ("extra", Str "x")])
     = {| isValid := false;
          errors := [ {| err_field := "extra";
                         err_message := "Unknown field: extra";
                         err_value := Str "x" |} ] |}
  /\ includes "Unknown field: extra" "Unknown field" = true.
Proof.
  assert (Hunknown :
            forall (properties : list (string * value)) (rs : list ValidationRule),
              map (unknownError (Obj properties))
                (unknownFields (Obj properties) {| rules := rs; strict := Some true |})
              = map (fun key => {| err_field := key;
                                   err_message := "Unknown field: " ++ key;
                                   err_value := lookup properties key |})
                  (filter (fun key => if in_dec string_dec key (map rule_field rs)
                                      then false else true)
                     (map fst properties))).
  { intros properties rs. unfold unknownFields, unknownError, detail. simpl.
    f_equal. apply filter_ext. intros key.
    destruct (in_dec string_dec key (map rule_field rs)) as [Hin | Hout].
    - apply includes_string_In in Hin. now rewrite Hin.
    - destruct (includes_string (map rule_field rs) key) eqn:E; [| reflexivity].
      apply includes_string_In in E. contradiction. }
  split; [| split; [| split; reflexivity]].
  - intros properties rs. unfold validateSchema. simpl.
    now rewrite <- Hunknown.
  - intros properties rs _. unfold validateSchema. simpl.
    rewrite <- Hunknown. now rewrite ruleErrors_flat_map.
Qed.

(** ** The domain validators *)

(** C2, as the code has it.  An empty name fails two checks of the name
    rule, the minimum length and the custom predicate, and both errors are
    reported, in that order; the second one mentions [empty]. *)
Theorem validateCreateItemRequest_empty_name :
  validateCreateItemRequest (Obj [("name", Str EmptyString); ("description", Str "ok")])
  = {| isValid := false;
       errors := [ {| err_field := "name";
                      err_message := "name must be at least 1 characters long";
                      err_value := Str EmptyString |};
                   {| err_field := "name";
                      err_message := "Name cannot be empty";
                      err_value := Str EmptyString |} ] |}
  /\ includes "Name cannot be empty" "empty" = true.
Proof. split; reflexivity. Qed.

(** C10.  An absent parameter bag passes list-query validation: [null] and
    [undefined] are replaced by the empty object, which the schema accepts,
    whereas [validateSchema] on [null] gives the root-level error. *)
Theorem validateListQueryParams_absent :
  validateListQueryParams Null = {| isValid := true; errors := [] |}
  /\ validateListQueryParams Undefined = {| isValid := true; errors := [] |}
  /\ validateSchema Null listQuerySchema
     = {| isValid := false;
          errors := [ {| err_field := "root";
                         err_message := "Data must be an object";
                         err_value := Null |} ] |}.
Proof. repeat split. Qed.

(** ** Further properties of the validators *)

Lemma number_ltb_of_Z :
  forall a b : Z, number_ltb (of_Z a) (of_Z b) = (a <? b)%Z.
Proof.
  intros a b. unfold number_ltb, of_Z, Qle_bool. simpl.
  rewrite !Z.mul_1_r. symmetry. apply Z.ltb_antisym.
Qed.

Lemma number_gtb_of_Z :
  forall a b : Z, number_gtb (of_Z a) (of_Z b) = (b <? a)%Z.
Proof. intros a b. apply number_ltb_of_Z. Qed.

Lemma number_truthy_of_Z :
  forall z : Z, number_truthy (of_Z z) = negb (z =? 0)%Z.
Proof.
  intros z. unfold number_truthy, of_Z, Qeq_bool. simpl.
  rewrite Z.mul_1_r. destruct z; reflexivity.
Qed.

Lemma flat_map_nil_iff :
  forall (A B : Type) (f : A -> list B) (l : list A),
    flat_map f l = [] <-> forall x, In x l -> f x = [].
Proof.
  intros A B f l; induction l as [| a l IH]; simpl.
  - split; [intros _ x [] | reflexivity].
  - split.
    + intros H. apply app_eq_nil in H. destruct H as [Ha Hl].
      intros x [<- | Hin]; [assumption | now apply IH].
    + intros H. rewrite (H a) by now left. simpl. apply IH.
      intros x Hin. apply H. now right.
Qed.

Lemma filter_nil_iff :
  forall (A : Type) (p : A -> bool) (l : list A),
    filter p l = [] <-> forall x, In x l -> p x = false.
Proof.
  intros A p l; induction l as [| a l IH]; simpl.
  - split; [intros _ x [] | reflexivity].
  - destruct (p a) eqn:E; split.
    + discriminate.
    + intros H. rewrite (H a) in E by now left. discriminate.
    + intros H x [<- | Hin]; [assumption | now apply IH].
    + intros H. apply IH. intros x Hin. apply H. now right.
Qed.

Lemma flat_map_ext_in :
  forall (A B : Type) (f g : A -> list B) (l : list A),
    (forall x, In x l -> f x = g x) -> flat_map f l = flat_map g l.
Proof.
  intros A B f g l; induction l as [| a l IH]; simpl; intros H.
  - reflexivity.
  - rewrite (H a) by now left. f_equal. apply IH.
    intros x Hin. apply H. now right.
Qed.

Lemma length_zero_nil :
  forall (A : Type) (l : list A), (List.length l =? 0)%nat = true <-> l = [].
Proof. intros A [| a l]; simpl; split; congruence. Qed.

(** Every error of a rule names the rule's field and carries the value
    checked. *)
Lemma validateField_errors :
  forall (v : value) (rule : ValidationRule),
    Forall (fun e => err_field e = rule_field rule /\ err_value e = v)
      (validateField v rule).
Proof.
  intros v rule.
  assert (Hs : Forall (fun e => err_field e = rule_field rule /\ err_value e = v)
                 (stringChecks v rule)).
  { unfold stringChecks. destruct v; try constructor.
    apply Forall_app; split; [| apply Forall_app; split].
    - destruct (rule_minLength rule) as [m |]; [| constructor].
      destruct (number_truthy m && _); repeat constructor.
    - destruct (rule_maxLength rule) as [m |]; [| constructor].
      destruct (number_truthy m && _); repeat constructor.
    - destruct (rule_pattern rule) as [test |]; [| constructor].
      destruct (negb (test s)); repeat constructor. }
  assert (Hn : Forall (fun e => err_field e = rule_field rule /\ err_value e = v)
                 (numberChecks v rule)).
  { unfold numberChecks. destruct v; try constructor.
    destruct (isNumber (Num n)); [| constructor].
    apply Forall_app; split.
    - destruct (rule_min rule) as [m |]; [| constructor].
      destruct (number_ltb n m); repeat constructor.
    - destruct (rule_max rule) as [m |]; [| constructor].
      destruct (number_gtb n m); repeat constructor. }
  assert (He : Forall (fun e => err_field e = rule_field rule /\ err_value e = v)
                 (enumCheck v rule)).
  { unfold enumCheck. destruct (rule_enum rule) as [allowed |]; [| constructor].
    destruct (negb (includes_value allowed v)); repeat constructor. }
  assert (Hc : Forall (fun e => err_field e = rule_field rule /\ err_value e = v)
                 (customCheck v rule)).
  { unfold customCheck. destruct (rule_custom rule) as [custom |]; [| constructor].
    destruct (custom v) as [[|] | message]; repeat constructor. }
  assert (Hall : Forall (fun e => err_field e = rule_field rule /\ err_value e = v)
                   (stringChecks v rule ++ numberChecks v rule
                    ++ enumCheck v rule ++ customCheck v rule)).
  { apply Forall_app; split; [assumption |].
    apply Forall_app; split; [assumption |].
    apply Forall_app; split; assumption. }
  unfold validateField.
  destruct (flag (rule_required rule) && negb (isDefined v));
    [repeat constructor |].
  destruct (negb (flag (rule_required rule)) && negb (isDefined v));
    [constructor |].
  destruct (rule_type rule) as [t |]; [| assumption].
  destruct (negb (isValidType t v)); [repeat constructor | assumption].
Qed.

(** Validity of an object against a schema: every rule is satisfied by the
    member it names and, in strict mode, every key is named by a rule. *)
Lemma validateSchema_valid_iff :
  forall (data : value) (schema : ValidationSchema),
    isValid (validateSchema data schema) = true
    <-> exists properties,
          data = Obj properties
          /\ (forall rule, In rule (rules schema) ->
                validateField (lookup properties (rule_field rule)) rule = [])
          /\ (flag (strict schema) = true ->
              forall key, In key (map fst properties) ->
                In key (map rule_field (rules schema))).
Proof.
  intros data schema.
  destruct data as [| | b | n | s | elements | properties];
    try (split; [discriminate | intros [properties [H _]]; discriminate H]).
  unfold validateSchema. simpl. rewrite ruleErrors_flat_map. simpl.
  rewrite length_zero_nil. split.
  - intros H. exists properties. split; [reflexivity |].
    destruct (flag (strict schema)).
    + apply app_eq_nil in H. destruct H as [Hrules Hunknown].
      split; [now apply flat_map_nil_iff |].
      intros _ key Hin.
      apply map_eq_nil in Hunknown. unfold unknownFields in Hunknown.
      simpl in Hunknown.
      apply (proj1 (filter_nil_iff _ _ _) Hunknown) in Hin.
      apply negb_false_iff in Hin. now apply includes_string_In.
    + split; [now apply flat_map_nil_iff | discriminate].
  - intros [properties' [Heq [Hrules Hkeys]]].
    injection Heq as <-.
    apply flat_map_nil_iff in Hrules.
    destruct (flag (strict schema)); [| assumption].
    rewrite Hrules. simpl.
    unfold unknownFields. simpl.
    replace (filter _ (map fst properties)) with (@nil string); [reflexivity |].
    symmetry. apply filter_nil_iff. intros key Hin.
    apply negb_false_iff. apply includes_string_In. now apply Hkeys.
Qed.

(** X1.  An absent value ([undefined] or [null]) is judged on [required]
    alone: one [is required] error, or nothing; the type and all the other
    constraints of the rule, its custom predicate included, are not
    consulted. *)
Theorem validateField_absent :
  forall (v : value) (rule : ValidationRule),
    isDefined v = false ->
    validateField v rule
    = (if flag (rule_required rule)
       then [ {| err_field := rule_field rule;
                 err_message := rule_field rule ++ " is required";
                 err_value := v |} ]
       else [])
    /\ forall rule' : ValidationRule,
         rule_field rule' = rule_field rule ->
         flag (rule_required rule') = flag (rule_required rule) ->
         validateField v rule' = validateField v rule.
Proof.
  intros v rule Habsent.
  assert (Hone : forall r : ValidationRule,
             validateField v r
             = if flag (rule_required r)
               then [detail (rule_field r) (rule_field r ++ " is required") v]
               else []).
  { intros r. unfold validateField. rewrite Habsent.
    destruct (flag (rule_required r)); reflexivity. }
  split.
  - apply Hone.
  - intros rule' Hfield Hreq. rewrite (Hone rule'), (Hone rule).
    now rewrite Hfield, Hreq.
Qed.

(** X2.  A length bound of [0] (or [NaN]) is no bound: the guard
    [rule.minLength && ...] is falsy, so the rule behaves as if the member
    were absent; in particular [maxLength: 0] does not reject non-empty
    strings. *)
Theorem validateField_falsy_length_bound :
  forall (v : value) (rule : ValidationRule) (m : number),
    number_truthy m = false ->
    validateField v (withLengths rule (Some m) (rule_maxLength rule))
    = validateField v (withLengths rule None (rule_maxLength rule))
    /\ validateField v (withLengths rule (rule_minLength rule) (Some m))
       = validateField v (withLengths rule (rule_minLength rule) None).
Proof.
  intros v rule m Hfalsy.
  unfold validateField, stringChecks, numberChecks, enumCheck, customCheck,
    typeError, withLengths; simpl.
  destruct v; simpl; rewrite ?Hfalsy; simpl; split; reflexivity.
Qed.

(** X3.  For a schema none of whose rules names an inherited member, every
    error reported for an object carries the value of the own member it
    names, and names either a field of a rule or a key of the object. *)
Theorem validateSchema_errors_describe_members :
  forall (properties : list (string * value)) (schema : ValidationSchema)
         (e : ValidationErrorDetail),
    ownFields (rules schema) ->
    In e (errors (validateSchema (Obj properties) schema)) ->
    err_value e = lookup properties (err_field e)
    /\ (In (err_field e) (map rule_field (rules schema))
        \/ In (err_field e) (map fst properties)).
Proof.
  intros properties schema e _. unfold validateSchema. simpl.
  rewrite ruleErrors_flat_map. simpl.
  assert (Hrules : In e (flat_map
                           (fun rule => validateField
                                          (lookup properties (rule_field rule)) rule)
                           (rules schema)) ->
                   err_value e = lookup properties (err_field e)
                   /\ In (err_field e) (map rule_field (rules schema))).
  { intros Hin. apply in_flat_map in Hin. destruct Hin as [rule [Hrule He]].
    pose proof (validateField_errors (lookup properties (rule_field rule)) rule) as HF.
    rewrite Forall_forall in HF. destruct (HF e He) as [Hf Hv].
    rewrite Hf, Hv. split; [reflexivity |].
    apply in_map_iff. now exists rule. }
  destruct (flag (strict schema)).
  - intros Hin. apply in_app_or in Hin. destruct Hin as [Hin | Hin].
    + destruct (Hrules Hin) as [Hv Hf]. split; [assumption | now left].
    + apply in_map_iff in Hin. destruct Hin as [key [<- Hkey]].
      simpl. split; [reflexivity |]. right.
      unfold unknownFields in Hkey. simpl in Hkey.
      now apply filter_In in Hkey.
  - intros Hin. destruct (Hrules Hin) as [Hv Hf]. split; [assumption | now left].
Qed.

(** X4.  For a schema none of whose rules names an inherited member, a
    value is valid exactly when it is an object, each rule reports nothing
    on the own member it names and, in strict mode, each key of the object
    is named by a rule. *)
Theorem validateSchema_validity :
  forall (data : value) (schema : ValidationSchema),
    ownFields (rules schema) ->
    (isValid (validateSchema data schema) = true
     <-> exists properties,
           data = Obj properties
           /\ (forall rule, In rule (rules schema) ->
                 validateField (lookup properties (rule_field rule)) rule = [])
           /\ (flag (strict schema) = true ->
               forall key, In key (map fst properties) ->
                 In key (map rule_field (rules schema)))).
Proof. intros data schema _. apply validateSchema_valid_iff. Qed.

(** X5.  Without strict mode the result depends on the members named by the
    rules only: two objects that agree on them get the same result, whatever
    else they carry. *)
Theorem validateSchema_lenient_ignores_other_members :
  forall (properties properties' : list (string * value))
         (schema : ValidationSchema),
    flag (strict schema) = false ->
    (forall rule, In rule (rules schema) ->
       lookup properties (rule_field rule) = lookup properties' (rule_field rule)) ->
    validateSchema (Obj properties) schema = validateSchema (Obj properties') schema.
Proof.
  intros properties properties' schema Hlenient Hagree.
  unfold validateSchema. simpl. rewrite Hlenient.
  rewrite !ruleErrors_flat_map. simpl.
  rewrite (flat_map_ext_in _ _
             (fun rule => validateField (lookup properties (rule_field rule)) rule)
             (fun rule => validateField (lookup properties' (rule_field rule)) rule)).
  - reflexivity.
  - intros rule Hin. now rewrite (Hagree rule Hin).
Qed.

(** *** What each rule of the fixed schemas accepts *)

Lemma Qle_bool_inject_Z :
  forall a b : Z, Qle_bool (inject_Z a) (inject_Z b) = (a <=? b)%Z.
Proof. intros a b. unfold Qle_bool. simpl. now rewrite !Z.mul_1_r. Qed.

Lemma Qeq_bool_inject_Z_0 :
  forall a : Z, Qeq_bool (inject_Z a) (inject_Z 0) = (a =? 0)%Z.
Proof. intros a. unfold Qeq_bool. simpl. now rewrite Z.mul_1_r. Qed.

Lemma requiredTextRule_accepts :
  forall (field message : string) (maxLength : Z) (v : value),
    (0 < maxLength)%Z ->
    validateField v
      {| rule_field := field; rule_required := Some true;
         rule_type := Some TString;
         rule_minLength := Some (of_Z 1); rule_maxLength := Some (of_Z maxLength);
         rule_min := None; rule_max := None; rule_pattern := None;
         rule_enum := None;
         rule_custom := Some (fun v => orMessage (isNonEmptyString v) message) |}
    = []
    <-> acceptableText maxLength v = true.
Proof.
  intros field message maxLength v Hmax.
  destruct v as [| | b | n | s | elements | properties];
    try (split; discriminate).
  unfold validateField, stringChecks, customCheck, enumCheck, numberChecks,
    acceptableText, of_nat; simpl.
  change 0%Q with (inject_Z 0).
  rewrite !Qle_bool_inject_Z, Qeq_bool_inject_Z_0.
  replace (maxLength =? 0)%Z with false by (symmetry; apply Z.eqb_neq; lia).
  destruct s as [| c rest].
  - simpl. rewrite andb_false_r. split; discriminate.
  - replace (1 <=? Z.of_nat (String.length (String c rest)))%Z with true
      by (symmetry; apply Z.leb_le; simpl String.length; lia).
    destruct (Z.of_nat (String.length (String c rest)) <=? maxLength)%Z; simpl.
    + destruct (0 <? String.length (trim (String c rest)))%nat; simpl;
        split; congruence.
    + split; discriminate.
Qed.

Lemma optionalTextRule_accepts :
  forall (field message : string) (maxLength : Z) (v : value),
    (0 < maxLength)%Z ->
    validateField v
      {| rule_field := field; rule_required := Some false;
         rule_type := Some TString;
         rule_minLength := Some (of_Z 1); rule_maxLength := Some (of_Z maxLength);
         rule_min := None; rule_max := None; rule_pattern := None;
         rule_enum := None;
         rule_custom := Some (fun v =>
           orMessage (negb (isDefined v) || isNonEmptyString v) message) |}
    = []
    <-> optional (acceptableText maxLength) v = true.
Proof.
  intros field message maxLength v Hmax.
  destruct v as [| | b | n | s | elements | properties];
    try (split; discriminate); try (split; reflexivity).
  unfold validateField, stringChecks, customCheck, enumCheck, numberChecks,
    optional, acceptableText, of_nat; simpl.
  change 0%Q with (inject_Z 0).
  rewrite !Qle_bool_inject_Z, Qeq_bool_inject_Z_0.
  replace (maxLength =? 0)%Z with false by (symmetry; apply Z.eqb_neq; lia).
  destruct s as [| c rest].
  - simpl. rewrite andb_false_r. split; discriminate.
  - replace (1 <=? Z.of_nat (String.length (String c rest)))%Z with true
      by (symmetry; apply Z.leb_le; simpl String.length; lia).
    destruct (Z.of_nat (String.length (String c rest)) <=? maxLength)%Z; simpl.
    + destruct (0 <? String.length (trim (String c rest)))%nat; simpl;
        split; congruence.
    + split; discriminate.
Qed.

Lemma statusRule_accepts :
  forall v : value,
    validateField v
      {| rule_field := "status"; rule_required := Some false;
         rule_type := Some TString;
         rule_minLength := None; rule_maxLength := None;
         rule_min := None; rule_max := None; rule_pattern := None;
         rule_enum := Some [Str "active"; Str "inactive"];
         rule_custom := None |}
    = []
    <-> optional acceptableStatus v = true.
Proof.
  intros v.
  destruct v as [| | b | n | s | elements | properties];
    try (split; discriminate); try (split; reflexivity).
  unfold validateField, stringChecks, customCheck, enumCheck, numberChecks,
    optional, acceptableStatus, includes_value, sameValueZero;
    cbn -[String.eqb].
  rewrite (String.eqb_sym "active" s), (String.eqb_sym "inactive" s).
  rewrite orb_false_r.
  destruct (String.eqb s "active" || String.eqb s "inactive"); simpl;
    split; congruence.
Qed.

Lemma limitRule_accepts :
  forall v : value,
    validateField v
      {| rule_field := "limit"; rule_required := Some false;
         rule_type := Some TString;
         rule_minLength := None; rule_maxLength := None;
         rule_min := None; rule_max := None; rule_pattern := None;
         rule_enum := None; rule_custom := Some limitCustom |}
    = []
    <-> optional acceptableLimit v = true.
Proof.
  intros v.
  destruct v as [| | b | n | s | elements | properties];
    try (split; discriminate); try (split; reflexivity).
  unfold validateField, stringChecks, customCheck, enumCheck, numberChecks,
    optional, acceptableLimit, limitCustom; simpl.
  destruct (parseInt (Str s)) as [n |]; simpl.
  - destruct ((0 <? n)%Z && (n <=? 100)%Z); simpl; split; congruence.
  - split; discriminate.
Qed.

Lemma offsetRule_accepts :
  forall v : value,
    validateField v
      {| rule_field := "offset"; rule_required := Some false;
         rule_type := Some TString;
         rule_minLength := None; rule_maxLength := None;
         rule_min := None; rule_max := None; rule_pattern := None;
         rule_enum := None; rule_custom := Some offsetCustom |}
    = []
    <-> optional acceptableOffset v = true.
Proof.
  intros v.
  destruct v as [| | b | n | s | elements | properties];
    try (split; discriminate); try (split; reflexivity).
  unfold validateField, stringChecks, customCheck, enumCheck, numberChecks,
    optional, acceptableOffset, offsetCustom; simpl.
  destruct (parseInt (Str s)) as [n |]; simpl.
  - destruct (0 <=? n)%Z; simpl; split; congruence.
  - split; discriminate.
Qed.

Lemma forallb_keys_In :
  forall (allowed : list string) (keys : list string),
    forallb (fun key => includes_string allowed key) keys = true
    <-> forall key, In key keys -> In key allowed.
Proof.
  intros allowed keys. rewrite forallb_forall. split.
  - intros H key Hin. apply includes_string_In. now apply H.
  - intros H key Hin. apply includes_string_In. now apply H.
Qed.

Lemma validateCreateItemRequest_valid :
  forall data : value,
    isValid (validateCreateItemRequest data)
    = match data with
      | Obj properties =>
          acceptableText 100 (lookup properties "name")
          && acceptableText 500 (lookup properties "description")
          && forallb (fun key => includes_string ["name"; "description"] key)
               (map fst properties)
      | _ => false
      end.
Proof.
  intros data. apply eq_iff_eq_true.
  unfold validateCreateItemRequest. rewrite validateSchema_valid_iff.
  destruct data as [| | b | n | s | elements | properties];
    try (split; [intros [properties [H _]]; discriminate H | discriminate]).
  rewrite !andb_true_iff, forallb_keys_In. split.
  - intros [properties' [Heq [Hrules Hkeys]]]. injection Heq as <-.
    pose proof (Hrules _ (or_introl eq_refl)) as Hname.
    pose proof (Hrules _ (or_intror (or_introl eq_refl))) as Hdescription.
    apply requiredTextRule_accepts in Hname; [| lia].
    apply requiredTextRule_accepts in Hdescription; [| lia].
    repeat split; try assumption. exact (Hkeys eq_refl).
  - intros [[Hname Hdescription] Hkeys]. exists properties.
    split; [reflexivity |]. split.
    + intros rule [<- | [<- | []]];
        apply requiredTextRule_accepts; (lia || assumption).
    + intros _. exact Hkeys.
Qed.

(** X6.  A create request is valid exactly when it is an object whose
    [name] is a string of at most 100 code units, not all white space, whose
    [description] is such a string of at most 500, and which has no other
    key. *)
Theorem validateCreateItemRequest_accepts :
  forall data : value,
    isValid (validateCreateItemRequest data)
    = match data with
      | Obj properties =>
          acceptableText 100 (lookup properties "name")
          && acceptableText 500 (lookup properties "description")
          && forallb (fun key => includes_string ["name"; "description"] key)
               (map fst properties)
      | _ => false
      end.
Proof. exact validateCreateItemRequest_valid. Qed.

Lemma validateUpdateItemRequest_valid :
  forall data : value,
    isValid (validateUpdateItemRequest data)
    = match data with
      | Obj properties =>
          optional (acceptableText 100) (lookup properties "name")
          && optional (acceptableText 500) (lookup properties "description")
          && optional acceptableStatus (lookup properties "status")
          && forallb (fun key => includes_string ["name"; "description"; "status"] key)
               (map fst properties)
      | _ => false
      end.
Proof.
  intros data. apply eq_iff_eq_true.
  unfold validateUpdateItemRequest. rewrite validateSchema_valid_iff.
  destruct data as [| | b | n | s | elements | properties];
    try (split; [intros [properties [H _]]; discriminate H | discriminate]).
  rewrite !andb_true_iff, forallb_keys_In. split.
  - intros [properties' [Heq [Hrules Hkeys]]]. injection Heq as <-.
    pose proof (Hrules _ (or_introl eq_refl)) as Hname.
    pose proof (Hrules _ (or_intror (or_introl eq_refl))) as Hdescription.
    pose proof (Hrules _ (or_intror (or_intror (or_introl eq_refl)))) as Hstatus.
    apply optionalTextRule_accepts in Hname; [| lia].
    apply optionalTextRule_accepts in Hdescription; [| lia].
    apply statusRule_accepts in Hstatus.
    repeat split; try assumption. exact (Hkeys eq_refl).
  - intros [[[Hname Hdescription] Hstatus] Hkeys]. exists properties.
    split; [reflexivity |]. split.
    + intros rule [<- | [<- | [<- | []]]].
      * apply optionalTextRule_accepts; (lia || assumption).
      * apply optionalTextRule_accepts; (lia || assumption).
      * now apply statusRule_accepts.
    + intros _. exact Hkeys.
Qed.

(** X7.  An update request is valid exactly when it is an object whose
    [name] and [description] are absent ([undefined] or [null]) or
    acceptable as above, whose [status] is absent or one of [active] and
    [inactive], and which has no other key. *)
Theorem validateUpdateItemRequest_accepts :
  forall data : value,
    isValid (validateUpdateItemRequest data)
    = match data with
      | Obj properties =>
          optional (acceptableText 100) (lookup properties "name")
          && optional (acceptableText 500) (lookup properties "description")
          && optional acceptableStatus (lookup properties "status")
          && forallb (fun key => includes_string ["name"; "description"; "status"] key)
               (map fst properties)
      | _ => false
      end.
Proof. exact validateUpdateItemRequest_valid. Qed.

Lemma validateItemId_valid :
  forall id : value,
    isValid (validateItemId id) = isNonEmptyString id
    /\ List.length (errors (validateItemId id)) <= 1
    /\ Forall (fun e => err_field e = "id" /\ err_value e = id)
         (errors (validateItemId id)).
Proof.
  intros id. unfold validateItemId.
  destruct id as [| | b | n | s | elements | properties]; simpl;
    try (destruct (0 <? String.length (trim s))%nat; simpl);
    (split; [reflexivity | split; [lia | repeat constructor]]).
Qed.

(** X8.  The id validator accepts exactly the strings that are not all
    white space, and reports at most one error, on field [id]. *)
Theorem validateItemId_accepts :
  forall id : value,
    isValid (validateItemId id) = isNonEmptyString id
    /\ List.length (errors (validateItemId id)) <= 1
    /\ Forall (fun e => err_field e = "id" /\ err_value e = id)
         (errors (validateItemId id)).
Proof. exact validateItemId_valid. Qed.

Lemma validateListQueryParams_valid :
  forall params : value,
    isValid (validateListQueryParams params)
    = if truthy params then
        match params with
        | Obj properties =>
            optional acceptableLimit (lookup properties "limit")
            && optional acceptableOffset (lookup properties "offset")
            && optional acceptableStatus (lookup properties "status")
        | _ => false
        end
      else true.
Proof.
  intros params. unfold validateListQueryParams.
  destruct (truthy params) eqn:Htruthy; [| reflexivity].
  apply eq_iff_eq_true. rewrite validateSchema_valid_iff.
  destruct params as [| | b | n | s | elements | properties];
    try (split; [intros [properties [H _]]; discriminate H | discriminate]).
  rewrite !andb_true_iff. split.
  - intros [properties' [Heq [Hrules _]]]. injection Heq as <-.
    pose proof (Hrules _ (or_introl eq_refl)) as Hlimit.
    pose proof (Hrules _ (or_intror (or_introl eq_refl))) as Hoffset.
    pose proof (Hrules _ (or_intror (or_intror (or_introl eq_refl)))) as Hstatus.
    apply limitRule_accepts in Hlimit. apply offsetRule_accepts in Hoffset.
    apply statusRule_accepts in Hstatus.
    repeat split; assumption.
  - intros [[Hlimit Hoffset] Hstatus]. exists properties.
    split; [reflexivity |]. split.
    + intros rule [<- | [<- | [<- | []]]].
      * now apply limitRule_accepts.
      * now apply offsetRule_accepts.
      * now apply statusRule_accepts.
    + discriminate.
Qed.

(** X9.  List-query parameters are valid exactly when they are falsy (no
    parameter bag, replaced by the empty object) or an object whose [limit],
    [offset] and [status] are absent or acceptable: a string whose leading
    integer is between 1 and 100, a string whose leading integer is not
    negative, one of the two status names; other keys are ignored. *)
Theorem validateListQueryParams_accepts :
  forall params : value,
    isValid (validateListQueryParams params)
    = if truthy params then
        match params with
        | Obj properties =>
            optional acceptableLimit (lookup properties "limit")
            && optional acceptableOffset (lookup properties "offset")
            && optional acceptableStatus (lookup properties "status")
        | _ => false
        end
      else true.
Proof. exact validateListQueryParams_valid. Qed.

Lemma parseInteger_clamped :
  forall (v : value) (d lo hi : Z),
    (lo <= hi)%Z ->
    parseInteger v (Some (of_Z d)) (Some (of_Z lo)) (Some (of_Z hi))
    = of_Z (match (if truthy v then parseInt v else None) with
            | Some p => Z.max lo (Z.min p hi)
            | None => d
            end)
    /\ parseInteger v (Some (of_Z d)) (Some (of_Z lo)) None
       = of_Z (match (if truthy v then parseInt v else None) with
               | Some p => Z.max lo p
               | None => d
               end).
Proof.
  intros v d lo hi Hbounds. unfold parseInteger.
  destruct (truthy v); cbn [negb]; [| split; reflexivity].
  destruct (parseInt v) as [p |]; [| split; reflexivity].
  rewrite !number_ltb_of_Z, !number_gtb_of_Z.
  destruct (p <? lo)%Z eqn:Hlo; destruct (hi <? p)%Z eqn:Hhi;
    rewrite ?Z.ltb_lt, ?Z.ltb_ge in Hlo, Hhi; split; f_equal; lia.
Qed.

(** X10.  [parseInteger] with bounds [lo <= hi] that are integers a double
    holds exactly returns the parsed integer clamped into the bounds, and
    the default, as it is, when the value is falsy or does not start with
    an integer; without an upper bound only the lower one is enforced, the
    parsed integer being returned as it is up to 2^53, where the double that
    [parseInt] returns is that integer. *)
Theorem parseInteger_clamps :
  forall (v : value) (d lo hi : Z),
    (lo <= hi)%Z ->
    safeInteger d -> safeInteger lo -> safeInteger hi ->
    parseInteger v (Some (of_Z d)) (Some (of_Z lo)) (Some (of_Z hi))
    = of_Z (match (if truthy v then parseInt v else None) with
            | Some p => Z.max lo (Z.min p hi)
            | None => d
            end)
    /\ match (if truthy v then parseInt v else None) with
       | Some p =>
           (p <= 2 ^ 53)%Z ->
           parseInteger v (Some (of_Z d)) (Some (of_Z lo)) None
           = of_Z (Z.max lo p)
       | None =>
           parseInteger v (Some (of_Z d)) (Some (of_Z lo)) None = of_Z d
       end.
Proof.
  intros v d lo hi Hbounds _ _ _.
  destruct (parseInteger_clamped v d lo hi Hbounds) as [Hboth Hlower].
  split; [exact Hboth |].
  destruct (if truthy v then parseInt v else None); [intros _ |]; exact Hlower.
Qed.

(** ** The handlers *)

Lemma getJsonBody_outcome :
  forall event : Event,
    getJsonBody event
    = match event_body event with
      | None => Normal Null
      | Some text =>
          if String.eqb text EmptyString then Normal Null
          else match JSON_parse text with
               | Some data => Normal data
               | None => Abrupt (ThrownError "Invalid JSON format")
               end
      end.
Proof.
  intros event. unfold getJsonBody, parseAndValidateJson.
  destruct (event_body event) as [text |]; [| reflexivity].
  destruct (String.eqb text EmptyString); [reflexivity |].
  destruct (JSON_parse text); reflexivity.
Qed.

Lemma itemIdOf_accepts :
  forall event : Event,
    isNonEmptyString (get (pathParameters event) "id") = true ->
    itemIdOf event = Normal (get (pathParameters event) "id").
Proof.
  intros event Hid. unfold itemIdOf, getPathParameters.
  assert (Htruthy : truthy (pathParameters event) = true)
    by (destruct (pathParameters event); try discriminate Hid; reflexivity).
  assert (Hdefined : isDefined (pathParameters event) = true)
    by (destruct (pathParameters event); try discriminate Hid; reflexivity).
  pose proof (validateItemId_valid (get (pathParameters event) "id")) as [Hvalid _].
  rewrite Htruthy. unfold assertExists, bind.
  rewrite Hdefined, Hvalid, Hid. reflexivity.
Qed.

Lemma itemIdOf_returns :
  forall (event : Event) (itemId : value),
    itemIdOf event = Normal itemId ->
    itemId = get (pathParameters event) "id" /\ isNonEmptyString itemId = true.
Proof.
  intros event itemId. unfold itemIdOf, getPathParameters, bind, assertExists.
  destruct (truthy (pathParameters event)); simpl isDefined; cbv iota;
    [| discriminate].
  destruct (negb (isDefined (pathParameters event))); [discriminate |].
  pose proof (validateItemId_valid (get (pathParameters event) "id")) as [Hvalid _].
  rewrite Hvalid.
  destruct (isNonEmptyString (get (pathParameters event) "id")) eqn:E;
    simpl; [| discriminate].
  intros H. injection H as <-. now split.
Qed.

Lemma hasId_object :
  forall (itemId item : value),
    isNonEmptyString itemId = true ->
    hasId itemId item = true ->
    exists properties, item = Obj properties.
Proof.
  intros itemId item Hid Hhas. unfold hasId in Hhas.
  destruct item as [| | b | n | s | elements | properties];
    try (destruct itemId; discriminate).
  now exists properties.
Qed.

(** X16.  A preflight request ([OPTIONS]) is answered by every handler with
    status 200, an empty body and the CORS headers, before anything of the
    request is read; the store is left as it is. *)
Theorem handlers_preflight :
  forall (createdAt updatedAt now : string) (event : Event) (store : list value),
    httpMethod event = "OPTIONS" ->
    let preflight :=
      ({| statusCode := 200; headers := DEFAULT_CORS_HEADERS; body := EmptyString |},
       store) in
    listItems now event store = preflight
    /\ getItem now event store = preflight
    /\ createItem createdAt updatedAt now event store = preflight
    /\ updateItem updatedAt now event store = preflight
    /\ deleteItem now event store = preflight.
Proof.
  intros createdAt updatedAt now event store Hmethod preflight.
  unfold listItems, getItem, createItem, updateItem, deleteItem,
    isCorsPreflightRequest.
  rewrite Hmethod. repeat split.
Qed.

(** X17.  The handlers touch the store on success only: [listItems] and
    [getItem] never change it; [createItem] leaves it as it is or answers
    201 and appends one item; [updateItem] keeps its length, and changes it
    only when it answers 200; [deleteItem] leaves it as it is or answers 200
    and removes one item. *)
Theorem handlers_store :
  forall (createdAt updatedAt now : string) (event : Event) (store : list value),
    snd (listItems now event store) = store
    /\ snd (getItem now event store) = store
    /\ (snd (createItem createdAt updatedAt now event store) = store
        \/ (statusCode (fst (createItem createdAt updatedAt now event store)) = 201%Z
            /\ exists newItem,
                 snd (createItem createdAt updatedAt now event store)
                 = (store ++ [newItem])%list))
    /\ (List.length (snd (updateItem updatedAt now event store)) = List.length store
        /\ (snd (updateItem updatedAt now event store) = store
            \/ statusCode (fst (updateItem updatedAt now event store)) = 200%Z))
    /\ (snd (deleteItem now event store) = store
        \/ (statusCode (fst (deleteItem now event store)) = 200%Z
            /\ S (List.length (snd (deleteItem now event store)))
               = List.length store)).
Proof.
  intros createdAt updatedAt now event store.
  assert (HreplaceAt : forall (i : nat) (v : value) (l : list value),
             List.length (replaceAt i v l) = List.length l).
  { intros i v l; revert i; induction l as [| x l IH]; intros [| i]; simpl;
      auto. }
  assert (HremoveAt : forall (p : value -> bool) (l : list value) (i : nat),
             findIndex p l = Some i ->
             S (List.length (removeAt i l)) = List.length l).
  { intros p l; induction l as [| x l IH]; intros i Hfind; [discriminate |].
    simpl in Hfind. destruct (p x).
    - injection Hfind as <-. reflexivity.
    - destruct (findIndex p l) as [j |]; [| discriminate].
      injection Hfind as <-. simpl. f_equal. now apply IH. }
  repeat split.
  - unfold listItems, handled.
    destruct (isCorsPreflightRequest event); [reflexivity |].
    destruct (negb (isValid _)); reflexivity.
  - unfold getItem, handled, bind.
    destruct (isCorsPreflightRequest event); [reflexivity |].
    destruct (itemIdOf event) as [itemId |]; [| reflexivity].
    destruct (find (hasId itemId) store) as [item |]; [| reflexivity].
    destruct (negb (truthy item)); reflexivity.
  - unfold createItem, handled, bind.
    destruct (isCorsPreflightRequest event); [now left |].
    destruct (getJsonBody event) as [requestBody |]; [| now left].
    destruct (assertExists requestBody _); [| now left].
    destruct (negb (isValid _)); [now left |].
    right. split; [reflexivity | eexists; reflexivity].
  - unfold updateItem, handled, bind.
    destruct (isCorsPreflightRequest event); [reflexivity |].
    destruct (itemIdOf event) as [itemId |]; [| reflexivity].
    destruct (getJsonBody event) as [requestBody |]; [| reflexivity].
    destruct (assertExists requestBody _); [| reflexivity].
    destruct (negb (isValid _)); [reflexivity |].
    destruct (findIndex (hasId itemId) store); [| reflexivity].
    apply HreplaceAt.
  - unfold updateItem, handled, bind.
    destruct (isCorsPreflightRequest event); [now left |].
    destruct (itemIdOf event) as [itemId |]; [| now left].
    destruct (getJsonBody event) as [requestBody |]; [| now left].
    destruct (assertExists requestBody _); [| now left].
    destruct (negb (isValid _)); [now left |].
    destruct (findIndex (hasId itemId) store); [| now left].
    now right.
  - unfold deleteItem, handled, bind.
    destruct (isCorsPreflightRequest event); [now left |].
    destruct (itemIdOf event) as [itemId |]; [| now left].
    destruct (findIndex (hasId itemId) store) as [i |] eqn:Hfind; [| now left].
    right. split; [reflexivity |]. simpl. now apply (HremoveAt (hasId itemId)).
Qed.

(** X18.  [createItem] on a body that parses to a valid create request
    answers 201 and appends the new item: its id is the store length plus
    one, its name and description are the request's, its status is
    [active], its stamps are the two clock readings. *)
Theorem createItem_created :
  forall (createdAt updatedAt now : string) (event : Event) (store : list value)
         (text : string) (data : value),
    isCorsPreflightRequest event = false ->
    event_body event = Some text ->
    text <> EmptyString ->
    JSON_parse text = Some data ->
    isValid (validateCreateItemRequest data) = true ->
    let newItem :=
      Obj [ ("id", Str (Number_toString (of_nat (List.length store + 1))));
            ("name", get data "name");
            ("description", get data "description");
            ("status", Str "active");
            ("createdAt", Str createdAt);
            ("updatedAt", Str updatedAt) ] in
    createItem createdAt updatedAt now event store
    = (createSuccessResponse newItem (Some "Item created successfully") (Some 201%Z),
       (store ++ [newItem])%list)
    /\ statusCode (fst (createItem createdAt updatedAt now event store)) = 201%Z.
Proof.
  intros createdAt updatedAt now event store text data
    Hmethod Hbody Htext Hparse Hvalid newItem.
  assert (Hrun : createItem createdAt updatedAt now event store
                 = (createSuccessResponse newItem
                      (Some "Item created successfully") (Some 201%Z),
                    (store ++ [newItem])%list)).
  { unfold createItem. rewrite Hmethod, getJsonBody_outcome, Hbody.
    apply String.eqb_neq in Htext. rewrite Htext, Hparse.
    unfold bind, assertExists.
    assert (Hdefined : isDefined data = true).
    { rewrite validateCreateItemRequest_valid in Hvalid.
      destruct data; try discriminate Hvalid; reflexivity. }
    rewrite Hdefined, Hvalid. reflexivity. }
  split; [exact Hrun | now rewrite Hrun].
Qed.

(** X19.  [createItem] without a body (the body is [null], empty, or the
    JSON text [null]) answers 404 [NOT_FOUND] with the message
    [Request body is required]; the store is left as it is. *)
Theorem createItem_without_body :
  forall (createdAt updatedAt now : string) (event : Event) (store : list value),
    isCorsPreflightRequest event = false ->
    match event_body event with
    | None => True
    | Some text => text = EmptyString \/ JSON_parse text = Some Null
    end ->
    createItem createdAt updatedAt now event store
    = (toResponse now (NotFoundError (Some "Request body is required")), store)
    /\ statusCode (fst (createItem createdAt updatedAt now event store)) = 404%Z.
Proof.
  intros createdAt updatedAt now event store Hmethod Hbody.
  assert (Hnull : getJsonBody event = Normal Null).
  { rewrite getJsonBody_outcome.
    destruct (event_body event) as [text |]; [| reflexivity].
    destruct (String.eqb text EmptyString) eqn:E; [reflexivity |].
    destruct Hbody as [-> | ->]; [discriminate E | reflexivity]. }
  assert (Hrun : createItem createdAt updatedAt now event store
                 = (toResponse now (NotFoundError (Some "Request body is required")),
                    store)).
  { unfold createItem. rewrite Hmethod, Hnull. reflexivity. }
  split; [exact Hrun | now rewrite Hrun].
Qed.

(** X20.  [createItem] on a body that is not JSON answers 500
    [INTERNAL_SERVER_ERROR]: the error thrown by [getJsonBody] is a plain
    [Error] whose message, [Invalid JSON format], contains none of the
    keywords of [handleError] as they are written (the capital [I] keeps
    [invalid] from matching). *)
Theorem createItem_malformed_body :
  forall (createdAt updatedAt now : string) (event : Event) (store : list value)
         (text : string),
    isCorsPreflightRequest event = false ->
    event_body event = Some text ->
    text <> EmptyString ->
    JSON_parse text = None ->
    createItem createdAt updatedAt now event store
    = (toResponse now
         (InternalServerError (Some "Internal server error: Invalid JSON format")),
       store)
    /\ statusCode (fst (createItem createdAt updatedAt now event store)) = 500%Z.
Proof.
  intros createdAt updatedAt now event store text Hmethod Hbody Htext Hparse.
  assert (Hrun : createItem createdAt updatedAt now event store
                 = (toResponse now
                      (InternalServerError
                         (Some "Internal server error: Invalid JSON format")),
                    store)).
  { unfold createItem. rewrite Hmethod, getJsonBody_outcome, Hbody.
    apply String.eqb_neq in Htext. rewrite Htext, Hparse. reflexivity. }
  split; [exact Hrun | now rewrite Hrun].
Qed.

(** X21.  [createItem] on a body that parses to a value other than [null]
    and fails validation answers 400 [VALIDATION_ERROR], the message being
    built by [createValidationError] from all the errors; the store is left
    as it is. *)
Theorem createItem_invalid_body :
  forall (createdAt updatedAt now : string) (event : Event) (store : list value)
         (text : string) (data : value),
    isCorsPreflightRequest event = false ->
    event_body event = Some text ->
    text <> EmptyString ->
    JSON_parse text = Some data ->
    isDefined data = true ->
    isValid (validateCreateItemRequest data) = false ->
    createItem createdAt updatedAt now event store
    = (toResponse now
         (createValidationError (errors (validateCreateItemRequest data))),
       store)
    /\ statusCode (fst (createItem createdAt updatedAt now event store)) = 400%Z.
Proof.
  intros createdAt updatedAt now event store text data
    Hmethod Hbody Htext Hparse Hdefined Hinvalid.
  assert (Hrun : createItem createdAt updatedAt now event store
                 = (toResponse now
                      (createValidationError
                         (errors (validateCreateItemRequest data))),
                    store)).
  { unfold createItem. rewrite Hmethod, getJsonBody_outcome, Hbody.
    apply String.eqb_neq in Htext. rewrite Htext, Hparse.
    unfold bind, assertExists. rewrite Hdefined, Hinvalid. reflexivity. }
  split; [exact Hrun | now rewrite Hrun].
Qed.

(** *** Lists and member lists *)

Lemma findIndex_split :
  forall (A : Type) (p : A -> bool) (before : list A) (x : A) (after : list A),
    p x = true ->
    (forall y, In y before -> p y = false) ->
    findIndex p (before ++ x :: after) = Some (List.length before)
    /\ find p (before ++ x :: after) = Some x.
Proof.
  intros A p before x after Hx. induction before as [| b before IH]; intros Hbefore.
  - simpl. now rewrite Hx.
  - simpl. rewrite (Hbefore b) by now left.
    destruct IH as [IHi IHf]; [intros y Hy; apply Hbefore; now right |].
    now rewrite IHi, IHf.
Qed.

Lemma findIndex_none :
  forall (A : Type) (p : A -> bool) (l : list A),
    (forall y, In y l -> p y = false) ->
    findIndex p l = None /\ find p l = None.
Proof.
  intros A p l. induction l as [| x l IH]; intros H; [now split |].
  simpl. rewrite (H x) by now left.
  destruct IH as [IHi IHf]; [intros y Hy; apply H; now right |].
  now rewrite IHi, IHf.
Qed.

Lemma removeAt_split :
  forall (A : Type) (before : list A) (x : A) (after : list A),
    removeAt (List.length before) (before ++ x :: after) = (before ++ after)%list.
Proof.
  intros A before x after. induction before as [| b before IH]; simpl;
    [reflexivity | now rewrite IH].
Qed.

Lemma replaceAt_split :
  forall (A : Type) (before : list A) (x v : A) (after : list A),
    replaceAt (List.length before) v (before ++ x :: after)
    = (before ++ v :: after)%list.
Proof.
  intros A before x v after. induction before as [| b before IH]; simpl;
    [reflexivity | now rewrite IH].
Qed.

Lemma lookup_set :
  forall (members : list (string * value)) (key key' : string) (v : value),
    lookup (set members key v) key'
    = if String.eqb key key' then v else lookup members key'.
Proof.
  induction members as [| [k old] rest IH]; intros key key' v.
  - simpl. now destruct (String.eqb key key').
  - simpl set. destruct (String.eqb k key) eqn:Ek.
    + apply String.eqb_eq in Ek. subst k. simpl.
      now destruct (String.eqb key key').
    + simpl. rewrite IH.
      destruct (String.eqb k key') eqn:Ek'; [| reflexivity].
      apply String.eqb_eq in Ek'. subst k.
      now rewrite (String.eqb_sym key key'), Ek.
Qed.

Lemma member_set :
  forall (A : Type) (members : list (string * A)) (key key' : string) (v : A),
    member (set members key v) key'
    = if String.eqb key key' then Some v else member members key'.
Proof.
  intros A. induction members as [| [k old] rest IH]; intros key key' v.
  - simpl. now destruct (String.eqb key key').
  - simpl set. destruct (String.eqb k key) eqn:Ek.
    + apply String.eqb_eq in Ek. subst k. simpl.
      now destruct (String.eqb key key').
    + simpl. rewrite IH.
      destruct (String.eqb k key') eqn:Ek'; [| reflexivity].
      apply String.eqb_eq in Ek'. subst k.
      now rewrite (String.eqb_sym key key'), Ek.
Qed.

Lemma member_app :
  forall (A : Type) (l1 l2 : list (string * A)) (key : string),
    member (l1 ++ l2) key
    = match member l1 key with
      | Some v => Some v
      | None => member l2 key
      end.
Proof.
  intros A l1 l2 key. induction l1 as [| [k v] l1 IH]; [reflexivity |].
  simpl. now destruct (String.eqb k key).
Qed.

Lemma member_spread :
  forall (A : Type) (source target : list (string * A)) (key : string),
    member (spread target source) key
    = match member (rev source) key with
      | Some v => Some v
      | None => member target key
      end.
Proof.
  intros A. unfold spread.
  induction source as [| [k v] source IH]; intros target key; [reflexivity |].
  simpl fold_left. rewrite IH. simpl rev. rewrite member_app, member_set.
  destruct (member (rev source) key); [reflexivity |].
  simpl. now destruct (String.eqb k key).
Qed.

Lemma slice_window :
  forall (A : Type) (arr : list A) (offset limit : Z),
    (0 <= offset)%Z -> (0 <= limit)%Z ->
    slice arr (of_Z offset) (number_add (of_Z offset) (of_Z limit))
    = firstn (Z.to_nat limit) (skipn (Z.to_nat offset) arr).
Proof.
  intros A arr offset limit Hoffset Hlimit.
  unfold slice, relativeIndex, number_add, of_Z, truncate. simpl.
  rewrite !Z.mul_1_r, !Z.quot_1_r.
  replace (offset <? 0)%Z with false by (symmetry; apply Z.ltb_ge; lia).
  replace (offset + limit <? 0)%Z with false by (symmetry; apply Z.ltb_ge; lia).
  destruct (Z_lt_ge_dec offset (Z.of_nat (List.length arr))) as [Hin | Hout].
  - replace (Z.to_nat (Z.min offset (Z.of_nat (List.length arr))))
      with (Z.to_nat offset) by lia.
    destruct (Z_le_gt_dec (offset + limit) (Z.of_nat (List.length arr)))
      as [Hfit | Hover].
    + f_equal. lia.
    + replace (Z.to_nat (Z.min (offset + limit) (Z.of_nat (List.length arr)))
               - Z.to_nat offset)
        with (List.length (skipn (Z.to_nat offset) arr))
        by (rewrite length_skipn; lia).
      rewrite firstn_all. symmetry. apply firstn_all2.
      rewrite length_skipn. lia.
  - replace (Z.to_nat (Z.min offset (Z.of_nat (List.length arr))))
      with (List.length arr) by lia.
    rewrite skipn_all. rewrite firstn_nil.
    rewrite (skipn_all2 arr) by lia. now rewrite firstn_nil.
Qed.

(** X22.  [getItem] with a valid id answers with the first item of the
    store that has this id, and with 404 [NOT_FOUND],
    [Item with ID <id> not found], exactly when no item has it. *)
Theorem getItem_finds_first :
  forall (now : string) (event : Event) (store : list value) (s : string),
    isCorsPreflightRequest event = false ->
    get (pathParameters event) "id" = Str s ->
    isNonEmptyString (Str s) = true ->
    getItem now event store
    = (match find (hasId (Str s)) store with
       | Some item =>
           createSuccessResponse item (Some "Item retrieved successfully") None
       | None =>
           toResponse now
             (NotFoundError (Some ("Item with ID " ++ s ++ " not found")))
       end, store)
    /\ (statusCode (fst (getItem now event store)) = 404%Z
        <-> forall item, In item store -> hasId (Str s) item = false).
Proof.
  intros now event store s Hmethod Hid Hvalid.
  assert (Hrun : getItem now event store
                 = (match find (hasId (Str s)) store with
                    | Some item =>
                        createSuccessResponse item
                          (Some "Item retrieved successfully") None
                    | None =>
                        toResponse now
                          (NotFoundError
                             (Some ("Item with ID " ++ s ++ " not found")))
                    end, store)).
  { unfold getItem. rewrite Hmethod, itemIdOf_accepts by (now rewrite Hid).
    rewrite Hid. unfold bind.
    destruct (find (hasId (Str s)) store) as [item |] eqn:Hfind; [| reflexivity].
    apply find_some in Hfind. destruct Hfind as [_ Hhas].
    destruct (hasId_object (Str s) item Hvalid Hhas) as [properties ->].
    reflexivity. }
  split; [exact Hrun |]. rewrite Hrun.
  destruct (find (hasId (Str s)) store) as [item |] eqn:Hfind.
  - split; [discriminate |]. intros Hnone.
    apply find_some in Hfind. destruct Hfind as [Hin Hhas].
    rewrite (Hnone item Hin) in Hhas. discriminate.
  - split; [| reflexivity]. intros _ item Hin.
    now apply (find_none _ _ Hfind).
Qed.

(** X23.  [deleteItem] with a valid id removes the first item that has this
    id and keeps every other item, in order; when no item has it, it
    answers 404 and the store is left as it is. *)
Theorem deleteItem_removes_first :
  forall (now : string) (event : Event) (store : list value) (s : string),
    isCorsPreflightRequest event = false ->
    get (pathParameters event) "id" = Str s ->
    isNonEmptyString (Str s) = true ->
    (forall before x after,
        store = (before ++ x :: after)%list ->
        hasId (Str s) x = true ->
        (forall y, In y before -> hasId (Str s) y = false) ->
        deleteItem now event store
        = (createSuccessResponse (Obj [("id", Str s)])
             (Some "Item deleted successfully") None,
           (before ++ after)%list))
    /\ ((forall y, In y store -> hasId (Str s) y = false) ->
        deleteItem now event store
        = (toResponse now
             (NotFoundError (Some ("Item with ID " ++ s ++ " not found"))),
           store)).
Proof.
  intros now event store s Hmethod Hid Hvalid.
  assert (Hstart : deleteItem now event store
                   = handled now store
                       match findIndex (hasId (Str s)) store with
                       | None => Abrupt (itemNotFound (Str s))
                       | Some itemIndex =>
                           Normal (createSuccessResponse (Obj [("id", Str s)])
                                     (Some "Item deleted successfully") None,
                                   removeAt itemIndex store)
                       end).
  { unfold deleteItem. rewrite Hmethod, itemIdOf_accepts by (now rewrite Hid).
    now rewrite Hid. }
  split.
  - intros before x after -> Hx Hbefore. rewrite Hstart.
    destruct (findIndex_split _ (hasId (Str s)) before x after Hx Hbefore)
      as [Hindex _].
    rewrite Hindex. simpl handled. now rewrite removeAt_split.
  - intros Hnone. rewrite Hstart.
    destruct (findIndex_none _ (hasId (Str s)) store Hnone) as [Hindex _].
    now rewrite Hindex.
Qed.

(** X24.  [updateItem] with a valid id and a body that parses to a valid
    update request replaces the first item that has this id by the updated
    item and keeps every other item, in order; when no item has the id, it
    answers 404 and the store is left as it is. *)
Theorem updateItem_replaces_first :
  forall (updatedAt now : string) (event : Event) (store : list value)
         (s text : string) (data : value),
    isCorsPreflightRequest event = false ->
    get (pathParameters event) "id" = Str s ->
    isNonEmptyString (Str s) = true ->
    event_body event = Some text ->
    text <> EmptyString ->
    JSON_parse text = Some data ->
    isValid (validateUpdateItemRequest data) = true ->
    (forall before x after,
        store = (before ++ x :: after)%list ->
        hasId (Str s) x = true ->
        (forall y, In y before -> hasId (Str s) y = false) ->
        updateItem updatedAt now event store
        = (createSuccessResponse (updatedItemOf x data updatedAt)
             (Some "Item updated successfully") None,
           (before ++ updatedItemOf x data updatedAt :: after)%list))
    /\ ((forall y, In y store -> hasId (Str s) y = false) ->
        updateItem updatedAt now event store
        = (toResponse now
             (NotFoundError (Some ("Item with ID " ++ s ++ " not found"))),
           store)).
Proof.
  intros updatedAt now event store s text data
    Hmethod Hid Hvalid Hbody Htext Hparse Hdata.
  assert (Hstart : updateItem updatedAt now event store
                   = handled now store
                       match findIndex (hasId (Str s)) store with
                       | None => Abrupt (itemNotFound (Str s))
                       | Some itemIndex =>
                           let existingItem := nth itemIndex store Undefined in
                           let updatedItem :=
                             updatedItemOf existingItem data updatedAt in
                           Normal (createSuccessResponse updatedItem
                                     (Some "Item updated successfully") None,
                                   replaceAt itemIndex updatedItem store)
                       end).
  { unfold updateItem. rewrite Hmethod, itemIdOf_accepts by (now rewrite Hid).
    rewrite Hid, getJsonBody_outcome, Hbody.
    apply String.eqb_neq in Htext. rewrite Htext, Hparse.
    unfold bind, assertExists.
    assert (Hdefined : isDefined data = true).
    { rewrite validateUpdateItemRequest_valid in Hdata.
      destruct data; try discriminate Hdata; reflexivity. }
    now rewrite Hdefined, Hdata. }
  split.
  - intros before x after -> Hx Hbefore. rewrite Hstart.
    destruct (findIndex_split _ (hasId (Str s)) before x after Hx Hbefore)
      as [Hindex _].
    rewrite Hindex. cbv zeta. rewrite nth_middle. simpl handled.
    now rewrite replaceAt_split.
  - intros Hnone. rewrite Hstart.
    destruct (findIndex_none _ (hasId (Str s)) store Hnone) as [Hindex _].
    now rewrite Hindex.
Qed.

(** X25.  What an update writes: [updatedAt] is the clock reading; [name],
    [description] and [status] are the request's when the request has them
    (anything but [undefined]); every other member of the item, its [id] and
    [createdAt] among them, is kept. *)
Theorem updatedItemOf_members :
  forall (properties : list (string * value)) (requestBody : value)
         (updatedAt key : string),
    get (updatedItemOf (Obj properties) requestBody updatedAt) key
    = if String.eqb key "updatedAt" then Str updatedAt
      else if includes_string ["name"; "description"; "status"] key
              && negb (strictEquals (get requestBody key) Undefined)
           then get requestBody key
           else lookup properties key.
Proof.
  intros properties requestBody updatedAt key.
  unfold updatedItemOf, get at 1, ownMembers.
  rewrite lookup_set, (String.eqb_sym "updatedAt" key).
  destruct (String.eqb key "updatedAt") eqn:Eu; [reflexivity |].
  assert (Hcopy : forall (k : string) (members : list (string * value)),
             lookup (if negb (strictEquals (get requestBody k) Undefined)
                     then set members k (get requestBody k)
                     else members) key
             = if String.eqb k key
                  && negb (strictEquals (get requestBody k) Undefined)
               then get requestBody k
               else lookup members key).
  { intros k members.
    destruct (negb (strictEquals (get requestBody k) Undefined)).
    - rewrite lookup_set. now rewrite andb_true_r.
    - now rewrite andb_false_r. }
  rewrite !Hcopy. unfold includes_string. cbn [existsb].
  destruct (String.eqb "status" key) eqn:Es.
  - apply String.eqb_eq in Es. subst key. reflexivity.
  - destruct (String.eqb "description" key) eqn:Ed.
    + apply String.eqb_eq in Ed. subst key. reflexivity.
    + destruct (String.eqb "name" key) eqn:En.
      * apply String.eqb_eq in En. subst key. reflexivity.
      * reflexivity.
Qed.

(** X26.  A [null] member of an update passes validation as an absent
    member does, but is written to the item as a value: an update whose
    [name] is [null] is valid and leaves the item with the name [null]. *)
Theorem updateItem_null_member :
  isValid (validateUpdateItemRequest (Obj [("name", Null)])) = true
  /\ forall (properties others : list (string * value)) (updatedAt : string),
       get (updatedItemOf (Obj properties) (Obj (("name", Null) :: others))
              updatedAt) "name"
       = Null.
Proof.
  split; [reflexivity |].
  intros properties others updatedAt.
  unfold updatedItemOf, get at 1, ownMembers.
  rewrite lookup_set. cbn [String.eqb Ascii.eqb Bool.eqb].
  change (get (Obj (("name", Null) :: others)) "name") with Null.
  cbn [strictEquals negb].
  destruct (negb (strictEquals
                    (get (Obj (("name", Null) :: others)) "status") Undefined));
    destruct (negb (strictEquals
                      (get (Obj (("name", Null) :: others)) "description")
                      Undefined));
    rewrite ?lookup_set; cbn [String.eqb Ascii.eqb Bool.eqb];
    rewrite ?lookup_set; cbn [String.eqb Ascii.eqb Bool.eqb];
    rewrite ?lookup_set; reflexivity.
Qed.

(** X27.  [createItem] numbers the new item after the length of the store
    and does not look at the ids in use: a successful creation adds one to
    the number of items that have the new id, so an id still in use is
    given again. *)
Theorem createItem_id_reuse :
  forall (createdAt updatedAt now : string) (event : Event) (store : list value)
         (text : string) (data : value),
    isCorsPreflightRequest event = false ->
    event_body event = Some text ->
    text <> EmptyString ->
    JSON_parse text = Some data ->
    isValid (validateCreateItemRequest data) = true ->
    let newId := Str (Number_toString (of_nat (List.length store + 1))) in
    List.length (filter (hasId newId)
                   (snd (createItem createdAt updatedAt now event store)))
    = S (List.length (filter (hasId newId) store)).
Proof.
  intros createdAt updatedAt now event store text data
    Hmethod Hbody Htext Hparse Hvalid newId.
  assert (Hrun : snd (createItem createdAt updatedAt now event store)
                 = (store
                    ++ [Item newId (get data "name") (get data "description")
                          (Str "active") (Str createdAt) (Str updatedAt)])%list).
  { unfold createItem. rewrite Hmethod, getJsonBody_outcome, Hbody.
    apply String.eqb_neq in Htext. rewrite Htext, Hparse.
    unfold bind, assertExists.
    assert (Hdefined : isDefined data = true).
    { rewrite validateCreateItemRequest_valid in Hvalid.
      destruct data; try discriminate Hvalid; reflexivity. }
    rewrite Hdefined, Hvalid. reflexivity. }
  rewrite Hrun, filter_app, length_app.
  assert (Hnew : hasId newId
                   (Item newId (get data "name") (get data "description")
                      (Str "active") (Str createdAt) (Str updatedAt)) = true).
  { unfold hasId, Item, newId. cbn [get lookup String.eqb Ascii.eqb Bool.eqb].
    cbn [strictEquals]. apply String.eqb_refl. }
  cbn [filter]. rewrite Hnew. simpl. lia.
Qed.

(** X28.  [listItems] with valid query parameters serves one page of the
    items, filtered by [status] when the parameter is given: it skips
    [offset] items and returns at most [limit] of them, in order, [limit]
    being between 1 and 100 (10 by default) and [offset] 0 by default. *)
Theorem listItems_page :
  forall (now : string) (event : Event) (store : list value),
    isCorsPreflightRequest event = false ->
    isValid (validateListQueryParams (getQueryParameters event)) = true ->
    let queryParams := getQueryParameters event in
    let filteredItems :=
      if truthy (get queryParams "status")
      then filter (fun item => strictEquals (get item "status")
                                 (get queryParams "status")) store
      else store in
    let page :=
      firstn (Z.to_nat (pageLimit queryParams))
        (skipn (Z.to_nat (pageOffset queryParams)) filteredItems) in
    listItems now event store
    = (createSuccessResponse (Arr page) (Some "Items retrieved successfully") None,
       store)
    /\ (1 <= pageLimit queryParams <= 100)%Z
    /\ List.length page <= 100.
Proof.
  intros now event store Hmethod Hvalid queryParams filteredItems page.
  subst page filteredItems queryParams.
  assert (Hlimit : (1 <= pageLimit (getQueryParameters event) <= 100)%Z).
  { unfold pageLimit.
    destruct (if truthy (get (getQueryParameters event) "limit")
              then parseInt (get (getQueryParameters event) "limit")
              else None); lia. }
  assert (Hoffset : (0 <= pageOffset (getQueryParameters event))%Z).
  { unfold pageOffset.
    destruct (if truthy (get (getQueryParameters event) "offset")
              then parseInt (get (getQueryParameters event) "offset")
              else None); lia. }
  split; [| split; [exact Hlimit |]].
  - unfold listItems. rewrite Hmethod, Hvalid.
    cbn [negb]. unfold handled.
    destruct (parseInteger_clamped (get (getQueryParameters event) "limit")
                10 1 100 ltac:(lia)) as [Hl _].
    destruct (parseInteger_clamped (get (getQueryParameters event) "offset")
                0 0 0 ltac:(lia)) as [_ Ho].
    rewrite Hl, Ho.
    fold (pageLimit (getQueryParameters event)).
    fold (pageOffset (getQueryParameters event)).
    rewrite slice_window by lia. reflexivity.
  - rewrite length_firstn. lia.
Qed.

(** X29.  A response built by [createResponse] carries, for each header
    name, the value given in the extra headers (the last one, if the name
    is given twice) and otherwise the default: [Content-Type] and the four
    CORS headers are always there. *)
Theorem createResponse_headers :
  forall (status : Z) (payload : ResponseBody)
         (extraHeaders : list (string * string)) (name : string),
    member (headers (createResponse status payload extraHeaders)) name
    = match member (rev extraHeaders) name with
      | Some v => Some v
      | None => member DEFAULT_HEADERS name
      end.
Proof.
  intros status payload extraHeaders name. unfold createResponse. simpl headers.
  apply member_spread.
Qed.

(** X30.  Creation followed by retrieval: when no item of the store has the
    id the new item is given, [getItem] with that id on the store left by
    [createItem] answers with the item just created. *)
Theorem getItem_after_createItem :
  forall (createdAt updatedAt now : string) (event request : Event)
         (store : list value) (text : string) (data : value),
    isCorsPreflightRequest event = false ->
    event_body event = Some text ->
    text <> EmptyString ->
    JSON_parse text = Some data ->
    isValid (validateCreateItemRequest data) = true ->
    let newId := Number_toString (of_nat (List.length store + 1)) in
    let newItem :=
      Item (Str newId) (get data "name") (get data "description")
        (Str "active") (Str createdAt) (Str updatedAt) in
    isCorsPreflightRequest request = false ->
    get (pathParameters request) "id" = Str newId ->
    isNonEmptyString (Str newId) = true ->
    (forall y, In y store -> hasId (Str newId) y = false) ->
    fst (getItem now request
           (snd (createItem createdAt updatedAt now event store)))
    = createSuccessResponse newItem (Some "Item retrieved successfully") None.
Proof.
  intros createdAt updatedAt now event request store text data
    Hmethod Hbody Htext Hparse Hvalid newId newItem Hget Hid Hnonempty Hfresh.
  assert (Hrun : snd (createItem createdAt updatedAt now event store)
                 = (store ++ [newItem])%list).
  { unfold createItem. rewrite Hmethod, getJsonBody_outcome, Hbody.
    apply String.eqb_neq in Htext. rewrite Htext, Hparse.
    unfold bind, assertExists.
    assert (Hdefined : isDefined data = true).
    { rewrite validateCreateItemRequest_valid in Hvalid.
      destruct data; try discriminate Hvalid; reflexivity. }
    rewrite Hdefined, Hvalid. reflexivity. }
  rewrite Hrun.
  assert (Hnew : hasId (Str newId) newItem = true).
  { unfold hasId, newItem, Item. cbn [get lookup String.eqb Ascii.eqb Bool.eqb].
    cbn [strictEquals]. apply String.eqb_refl. }
  destruct (findIndex_split _ (hasId (Str newId)) store newItem [] Hnew Hfresh)
    as [_ Hfind].
  unfold getItem. rewrite Hget, itemIdOf_accepts by (now rewrite Hid).
  rewrite Hid. unfold bind. rewrite Hfind. reflexivity.
Qed.

End Host.

(** ** The error handler *)

Lemma append_assoc :
  forall a b c : string, (a ++ b) ++ c = a ++ (b ++ c).
Proof.
  intros a b c; induction a as [| x a IH]; simpl.
  - reflexivity.
  - now rewrite IH.
Qed.

Lemma join_commaJoined :
  forall details : list ValidationErrorDetail,
    join ", " (map (fun err => err_field err ++ ": " ++ err_message err) details)
    = commaJoined details.
Proof.
  induction details as [| d rest IH]; [reflexivity |].
  destruct rest as [| d' rest']; [reflexivity |].
  change (commaJoined (d :: d' :: rest'))
    with (err_field d ++ ": " ++ err_message d ++ ", " ++ commaJoined (d' :: rest')).
  rewrite <- IH.
  change (join ", " (map (fun err => err_field err ++ ": " ++ err_message err)
                       (d :: d' :: rest')))
    with ((err_field d ++ ": " ++ err_message d) ++ ", "
          ++ join ", " (map (fun err => err_field err ++ ": " ++ err_message err)
                          (d' :: rest'))).
  now rewrite !append_assoc.
Qed.

(** A row of the priority list decides the kind as soon as it triggers and
    no row before it does. *)
Lemma classifyKind_first_row :
  forall view message before row after,
    keywordPriority = (before ++ row :: after)%list ->
    (forall earlier, In earlier before -> triggers (view message) earlier = false) ->
    triggers (view message) row = true ->
    classifyKind view message = snd row.
Proof.
  intros view message before row after Htable Hbefore Hrow.
  unfold classifyKind. rewrite Htable. clear Htable.
  induction before as [| r before IH]; simpl.
  - rewrite Hrow. now destruct row.
  - rewrite (Hbefore r) by now left.
    apply IH. intros earlier Hin. apply Hbefore. now right.
Qed.

Lemma classify_kind :
  forall view message,
    error_statusCode (classify view message)
    = kind_status (classifyKind view message).
Proof.
  intros view message. unfold classify, classifyKind.
  destruct (find (triggers (view message)) keywordPriority) as [[kws kind] |].
  - now destruct kind.
  - reflexivity.
Qed.

Lemma handleError_classify :
  forall now message,
    handleError now (ThrownError message)
    = toResponse now (classify (fun text => text) message).
Proof.
  intros now message.
  unfold handleError, classify, keywordPriority, triggers; simpl.
  repeat match goal with
         | |- context [includes message ?kw] =>
             destruct (includes message kw); simpl; try reflexivity
         end.
Qed.

(** The classification as the code has it.  For an [Error] that is not an
    [ApiError], [handleError] answers with the first row of the priority list one of
    whose keywords occurs in the message itself, compared case-sensitively,
    and with an Internal error wrapping the message when no row triggers;
    the status code is the one of the kind; a row that triggers wins over
    every row listed after it. *)
Theorem handleError_keyword_priority :
  forall (now message : string),
    handleError now (ThrownError message)
    = toResponse now (classify (fun text => text) message)
    /\ statusCode (handleError now (ThrownError message))
       = kind_status (classifyKind (fun text => text) message)
    /\ forall before row after,
         keywordPriority = (before ++ row :: after)%list ->
         (forall earlier, In earlier before -> triggers message earlier = false) ->
         triggers message row = true ->
         handleError now (ThrownError message)
         = toResponse now (make (snd row) (Some message)).
Proof.
  intros now message. split; [| split].
  - apply handleError_classify.
  - rewrite handleError_classify. simpl. apply classify_kind.
  - intros before row after Htable Hbefore Hrow.
    rewrite handleError_classify. unfold classify.
    rewrite Htable. clear Htable.
    induction before as [| r before IH]; simpl.
    + rewrite Hrow. now destruct row.
    + rewrite (Hbefore r) by now left.
      apply IH. intros earlier Hin. apply Hbefore. now right.
Qed.

(** C3, as the code has it.  [createValidationError] returns a
    Validation-kind error (400, [VALIDATION_ERROR]) whose message is
    [Validation failed: ] followed by the comma-joined pairs, in the order of
    the details. *)
Theorem createValidationError_message :
  forall details : list ValidationErrorDetail,
    createValidationError details
    = {| error_name := "ValidationError";
         error_statusCode := 400;
         error_errorCode := "VALIDATION_ERROR";
         error_message := "Validation failed: " ++ commaJoined details |}.
Proof.
  intros details. unfold createValidationError, ValidationError, default.
  now rewrite join_commaJoined.
Qed.



(** By contrast an [Error] whose message triggers no row is classified as
    Internal and keeps its message, after the prefix: the generic text is
    kept for values that are not errors at all. *)
Remark handleError_standard_error :
  forall now : string,
    handleError now (ThrownError "Standard error")
    = toResponse now
        (InternalServerError (Some "Internal server error: Standard error")).
Proof. reflexivity. Qed.

(** ** Request helpers *)

Lemma includes_comma_cons :
  forall (c : ascii) (rest : string),
    includes (String c rest) "," = Ascii.eqb c ","%char || includes rest ",".
Proof.
  intros c rest.
  change (includes (String c rest) ",")
    with (if (if ascii_dec ","%char c then prefix EmptyString rest else false)
          then true else includes rest ",").
  destruct (ascii_dec ","%char c) as [<- | Hneq].
  - destruct rest; reflexivity.
  - replace (Ascii.eqb c ","%char) with false; [reflexivity |].
    symmetry. apply Ascii.eqb_neq. congruence.
Qed.

Lemma trimStart_no_comma :
  forall s : string, includes s "," = false -> includes (trimStart s) "," = false.
Proof.
  induction s as [| c rest IH]; intros H; [reflexivity |].
  simpl trimStart. destruct (isWhiteSpace c); [| assumption].
  rewrite includes_comma_cons in H. apply orb_false_iff in H.
  now apply IH.
Qed.

Lemma trimEnd_no_comma :
  forall s : string, includes s "," = false -> includes (trimEnd s) "," = false.
Proof.
  induction s as [| c rest IH]; intros H; [reflexivity |].
  rewrite includes_comma_cons in H. apply orb_false_iff in H.
  destruct H as [Hc Hrest]. specialize (IH Hrest).
  simpl trimEnd. destruct (trimEnd rest) as [| k kept].
  - destruct (isWhiteSpace c); [reflexivity |].
    rewrite includes_comma_cons, Hc. reflexivity.
  - rewrite includes_comma_cons, Hc, IH. reflexivity.
Qed.

Lemma trimEnd_cons :
  forall (c : ascii) (rest : string),
    trimEnd (String c rest)
    = match trimEnd rest with
      | EmptyString =>
          if isWhiteSpace c then EmptyString else String c EmptyString
      | kept => String c kept
      end.
Proof. reflexivity. Qed.

Lemma trimEnd_idempotent :
  forall s : string, trimEnd (trimEnd s) = trimEnd s.
Proof.
  induction s as [| c rest IH]; [reflexivity |].
  rewrite (trimEnd_cons c rest).
  destruct (trimEnd rest) as [| k kept] eqn:E.
  - destruct (isWhiteSpace c) eqn:W; [reflexivity |].
    rewrite trimEnd_cons. simpl. now rewrite W.
  - rewrite trimEnd_cons. now rewrite IH.
Qed.

Lemma trimStart_startsClean :
  forall s : string, startsClean (trimStart s) = true.
Proof.
  induction s as [| c rest IH]; [reflexivity |].
  simpl. destruct (isWhiteSpace c) eqn:W; [assumption |].
  simpl. now rewrite W.
Qed.

Lemma trimStart_fixed :
  forall s : string, startsClean s = true -> trimStart s = s.
Proof.
  intros [| c rest] H; [reflexivity |].
  simpl in *. apply negb_true_iff in H. now rewrite H.
Qed.

Lemma trimEnd_startsClean :
  forall s : string, startsClean s = true -> startsClean (trimEnd s) = true.
Proof.
  intros [| c rest] H; [reflexivity |].
  rewrite trimEnd_cons. simpl in H.
  destruct (trimEnd rest); [| exact H].
  apply negb_true_iff in H. rewrite H. simpl. now rewrite H.
Qed.

Lemma trim_idempotent :
  forall s : string, trim (trim s) = trim s.
Proof.
  intros s. unfold trim.
  rewrite (trimStart_fixed (trimEnd (trimStart s))).
  - apply trimEnd_idempotent.
  - apply trimEnd_startsClean, trimStart_startsClean.
Qed.

Lemma trim_no_comma :
  forall s : string, includes s "," = false -> includes (trim s) "," = false.
Proof.
  intros s H. unfold trim. now apply trimEnd_no_comma, trimStart_no_comma.
Qed.

Lemma split_comma_no_comma :
  forall s : string,
    Forall (fun piece => includes piece "," = false) (split_comma s).
Proof.
  induction s as [| c rest IH]; simpl.
  - repeat constructor.
  - destruct (Ascii.eqb c ","%char) eqn:E.
    + constructor; [reflexivity | assumption].
    + destruct (split_comma rest) as [| piece pieces].
      * constructor; [| constructor].
        now rewrite includes_comma_cons, E.
      * inversion IH as [| ? ? Hpiece Hpieces]; subst.
        constructor; [| assumption].
        now rewrite includes_comma_cons, E.
Qed.

Lemma split_comma_piece :
  forall (piece rest : string),
    includes piece "," = false ->
    split_comma (piece ++ "," ++ rest) = piece :: split_comma rest.
Proof.
  induction piece as [| c piece IH]; intros rest H.
  - reflexivity.
  - rewrite includes_comma_cons in H. apply orb_false_iff in H.
    destruct H as [Hc Hpiece].
    change (split_comma (String c piece ++ "," ++ rest))
      with (if Ascii.eqb c ","%char
            then EmptyString :: split_comma (piece ++ "," ++ rest)
            else match split_comma (piece ++ "," ++ rest) with
                 | p :: ps => String c p :: ps
                 | [] => [String c EmptyString]
                 end).
    now rewrite Hc, (IH rest Hpiece).
Qed.

Lemma split_comma_single :
  forall piece : string,
    includes piece "," = false -> split_comma piece = [piece].
Proof.
  induction piece as [| c piece IH]; intros H; [reflexivity |].
  rewrite includes_comma_cons in H. apply orb_false_iff in H.
  destruct H as [Hc Hpiece]. simpl. now rewrite Hc, (IH Hpiece).
Qed.

Lemma split_comma_join :
  forall entries : list string,
    entries <> [] ->
    Forall (fun entry => includes entry "," = false) entries ->
    split_comma (join "," entries) = entries.
Proof.
  induction entries as [| entry rest IH]; intros Hne Hall; [congruence |].
  inversion Hall as [| ? ? Hentry Hrest]; subst.
  destruct rest as [| entry' rest'].
  - simpl. now apply split_comma_single.
  - change (join "," (entry :: entry' :: rest'))
      with (entry ++ "," ++ join "," (entry' :: rest')).
    rewrite split_comma_piece by assumption.
    f_equal. apply IH; [discriminate | assumption].
Qed.

Lemma parseCommaSeparatedValues_clean :
  forall value : option string,
    Forall (fun entry =>
              (0 <? String.length entry)%nat = true
              /\ trim entry = entry
              /\ includes entry "," = false)
      (parseCommaSeparatedValues value).
Proof.
  intros [s |]; [| constructor]. unfold parseCommaSeparatedValues.
  destruct (String.eqb s EmptyString); [constructor |].
  apply Forall_forall. intros entry Hin.
  apply filter_In in Hin. destruct Hin as [Hin Hlen].
  apply in_map_iff in Hin. destruct Hin as [piece [<- Hpiece]].
  split; [assumption |]. split; [apply trim_idempotent |].
  apply trim_no_comma.
  pose proof (split_comma_no_comma s) as Hall.
  rewrite Forall_forall in Hall. now apply Hall.
Qed.

(** X11.  Every entry returned by [parseCommaSeparatedValues] is non-empty,
    has no white space at either end and contains no comma. *)
Theorem parseCommaSeparatedValues_entries :
  forall value : option string,
    Forall (fun entry =>
              entry <> EmptyString
              /\ trim entry = entry
              /\ includes entry "," = false)
      (parseCommaSeparatedValues value).
Proof.
  intros value.
  eapply Forall_impl; [| apply parseCommaSeparatedValues_clean].
  intros entry [Hlen [Htrim Hcomma]]. repeat split; try assumption.
  intros ->. discriminate Hlen.
Qed.

(** X12.  Joining the entries with commas and parsing the text again gives
    the entries back. *)
Theorem parseCommaSeparatedValues_join :
  forall value : option string,
    parseCommaSeparatedValues
      (Some (join "," (parseCommaSeparatedValues value)))
    = parseCommaSeparatedValues value.
Proof.
  intros value.
  pose proof (parseCommaSeparatedValues_clean value) as Hclean.
  destruct (parseCommaSeparatedValues value) as [| entry rest] eqn:E;
    [reflexivity |].
  assert (Hjoin : String.eqb (join "," (entry :: rest)) EmptyString = false).
  { inversion Hclean as [| ? ? [Hlen _] _]; subst.
    destruct entry as [| c entry]; [discriminate Hlen |].
    destruct rest; reflexivity. }
  unfold parseCommaSeparatedValues at 1. rewrite Hjoin.
  rewrite split_comma_join.
  - assert (Hmap : map trim (entry :: rest) = entry :: rest).
    { clear E Hjoin. induction Hclean as [| x l [_ [Htrim _]] _ IH];
        [reflexivity |]. simpl. now rewrite Htrim, IH. }
    rewrite Hmap. clear E Hjoin Hmap.
    induction Hclean as [| x l [Hlen _] _ IH]; [reflexivity |].
    simpl. now rewrite Hlen, IH.
  - discriminate.
  - eapply Forall_impl; [| exact Hclean]. now intros x [_ [_ H]].
Qed.

(** ** Retries *)

Lemma number_leb_of_nat :
  forall a b : nat, number_leb (of_nat a) (of_nat b) = (a <=? b)%nat.
Proof.
  intros a b. unfold number_leb, of_nat, number_ltb.
  rewrite Qle_bool_inject_Z, negb_involutive.
  destruct (a <=? b)%nat eqn:E.
  - apply Z.leb_le. apply Nat.leb_le in E. lia.
  - apply Z.leb_gt. apply Nat.leb_gt in E. lia.
Qed.

Lemma number_eqb_of_nat :
  forall a b : nat, number_eqb (of_nat a) (of_nat b) = (a =? b)%nat.
Proof.
  intros a b. unfold number_eqb, of_nat, Qeq_bool. simpl.
  rewrite !Z.mul_1_r.
  destruct (a =? b)%nat eqn:E.
  - apply Z.eqb_eq. apply Nat.eqb_eq in E. lia.
  - apply Z.eqb_neq. apply Nat.eqb_neq in E. lia.
Qed.

Lemma retryLoop_step :
  forall (A : Type) (fn : nat -> completion A) (maxRetries baseDelay : number)
         (fuel attempt : nat) (lastError : thrown) (sleeps : list number),
    retryLoop fn maxRetries baseDelay (S fuel) attempt lastError sleeps
    = if number_leb (of_nat attempt) maxRetries then
        match fn attempt with
        | Normal a =>
            Some {| retry_completion := Normal a;
                    retry_calls := S attempt;
                    retry_sleeps := sleeps |}
        | Abrupt error =>
            if isClientError error then
              Some {| retry_completion := Abrupt error;
                      retry_calls := S attempt;
                      retry_sleeps := sleeps |}
            else if number_eqb (of_nat attempt) maxRetries then
              Some {| retry_completion := Abrupt error;
                      retry_calls := S attempt;
                      retry_sleeps := sleeps |}
            else
              retryLoop fn maxRetries baseDelay fuel (S attempt) error
                (sleeps ++ [number_mul baseDelay (Math_pow2 attempt)])
        end
      else
        Some {| retry_completion := Abrupt lastError;
                retry_calls := attempt;
                retry_sleeps := sleeps |}.
Proof. reflexivity. Qed.

(** The loop, started at call [attempt], ends at the first call [k] whose
    outcome is not retried, or at call [n]. *)
Lemma retryLoop_run :
  forall (A : Type) (fn : nat -> completion A) (n : nat) (baseDelay : number)
         (k : nat),
    k <= n ->
    (retryable (fn k) = false \/ k = n) ->
    forall (gap fuel attempt : nat) (lastError : thrown)
           (sleeps : list number),
      attempt + gap = k ->
      gap < fuel ->
      (forall j, attempt <= j < k -> retryable (fn j) = true) ->
      retryLoop fn (of_nat n) baseDelay fuel attempt lastError sleeps
      = Some {| retry_completion := fn k;
                retry_calls := S k;
                retry_sleeps :=
                  (sleeps ++ map (fun a => number_mul baseDelay (Math_pow2 a))
                               (seq attempt gap))%list |}.
Proof.
  intros A fn n baseDelay k Hk Hstop.
  induction gap as [| gap IH]; intros fuel attempt lastError sleeps Hsum Hfuel Hretry.
  - assert (attempt = k) by lia. subst attempt.
    destruct fuel as [| fuel]; [lia |]. rewrite retryLoop_step.
    rewrite number_leb_of_nat.
    replace (k <=? n)%nat with true by (symmetry; apply Nat.leb_le; lia).
    simpl seq. simpl map. rewrite app_nil_r.
    destruct (fn k) as [a | error] eqn:Hfn; [reflexivity |].
    destruct (isClientError error) eqn:Hclient; [reflexivity |].
    rewrite number_eqb_of_nat.
    destruct Hstop as [Hstop | Hstop].
    + simpl in Hstop. rewrite Hclient in Hstop. discriminate.
    + subst n. now rewrite Nat.eqb_refl.
  - destruct fuel as [| fuel]; [lia |]. rewrite retryLoop_step.
    rewrite number_leb_of_nat.
    replace (attempt <=? n)%nat with true by (symmetry; apply Nat.leb_le; lia).
    pose proof (Hretry attempt ltac:(lia)) as Hthis.
    destruct (fn attempt) as [a | error]; [discriminate Hthis |].
    simpl in Hthis. apply negb_true_iff in Hthis. rewrite Hthis.
    rewrite number_eqb_of_nat.
    replace (attempt =? n)%nat with false by (symmetry; apply Nat.eqb_neq; lia).
    rewrite (IH fuel (S attempt) error
               (sleeps ++ [number_mul baseDelay (Math_pow2 attempt)])%list);
      [| lia | lia | intros j Hj; apply Hretry; lia].
    simpl seq. simpl map. now rewrite <- app_assoc.
Qed.

(** Among the calls [0 .. n] there is a first one that is not retried, or
    all of them are. *)
Lemma first_final_call :
  forall (A : Type) (fn : nat -> completion A) (n : nat),
    exists k, k <= n
              /\ (forall j, j < k -> retryable (fn j) = true)
              /\ (retryable (fn k) = false \/ k = n).
Proof.
  intros A fn n. induction n as [| n IH].
  - exists 0. split; [lia |]. split; [intros j Hj; lia | now right].
  - destruct IH as [k [Hk [Hbefore Hstop]]].
    destruct (retryable (fn k)) eqn:Hfn.
    + destruct Hstop as [Hstop | Hstop]; [discriminate |]. subst k.
      exists (S n). split; [lia |]. split; [| now right].
      intros j Hj. destruct (Nat.eq_dec j n) as [-> | Hne]; [assumption |].
      apply Hbefore. lia.
    + exists k. split; [lia |]. split; [assumption | now left].
Qed.

Lemma delay_of_Z :
  forall (b : Z) (i : nat),
    i < 1024 ->
    number_mul (of_Z b) (Math_pow2 i) = of_Z (b * 2 ^ Z.of_nat i).
Proof.
  intros b i Hi. unfold Math_pow2.
  replace (i <? 1024)%nat with true by (symmetry; apply Nat.ltb_lt; exact Hi).
  reflexivity.
Qed.

(** X13.  With [maxRetries = n] and an integer [baseDelay = b],
    [retryWithBackoff] calls [fn] until the first outcome that is a return
    or a client error (an [ApiError] with a 4xx status), or until call
    number [n]; it ends with the outcome of that call, having slept once
    after each earlier call, for [b * 2^0], [b * 2^1], ... milliseconds.
    The bounds on [n] and [b] keep every delay an exact double. *)
Theorem retryWithBackoff_run :
  forall (A : Type) (fn : nat -> completion A) (n : nat)
         (baseDelay : option number) (b : Z) (fuel k : nat),
    n < fuel ->
    k <= n ->
    n <= 960 ->
    safeInteger b ->
    match baseDelay with Some d => d | None => of_Z 1000 end = of_Z b ->
    (forall j, j < k -> retryable (fn j) = true) ->
    (retryable (fn k) = false \/ k = n) ->
    retryWithBackoff fn (Some (of_nat n)) baseDelay fuel
    = Some {| retry_completion := fn k;
              retry_calls := S k;
              retry_sleeps :=
                map (fun i => of_Z (b * 2 ^ Z.of_nat i)) (seq 0 k) |}.
Proof.
  intros A fn n baseDelay b fuel k Hfuel Hk Hn Hsafe Hbase Hbefore Hstop.
  unfold retryWithBackoff. rewrite Hbase.
  rewrite (retryLoop_run A fn n _ k Hk Hstop k fuel 0); try lia.
  - simpl app. do 2 f_equal. apply map_ext_in. intros i Hi.
    apply in_seq in Hi. apply delay_of_Z. lia.
  - intros j Hj. apply Hbefore. lia.
Qed.

(** X14.  With [maxRetries = n], a run of [retryWithBackoff] always ends; it
    makes at least one and at most [n + 1] calls, and one sleep fewer than
    calls. *)
Theorem retryWithBackoff_bounded :
  forall (A : Type) (fn : nat -> completion A) (n : nat)
         (baseDelay : option number) (fuel : nat),
    n < fuel ->
    exists run,
      retryWithBackoff fn (Some (of_nat n)) baseDelay fuel = Some run
      /\ 1 <= retry_calls run <= n + 1
      /\ List.length (retry_sleeps run) + 1 = retry_calls run.
Proof.
  intros A fn n baseDelay fuel Hfuel.
  destruct (first_final_call A fn n) as [k [Hk [Hbefore Hstop]]].
  unfold retryWithBackoff.
  rewrite (retryLoop_run A fn n _ k Hk Hstop k fuel 0); try lia.
  - eexists. split; [reflexivity |]. simpl.
    rewrite length_map, length_seq. lia.
  - intros j Hj. apply Hbefore. lia.
Qed.

(** X15.  When [0 <= maxRetries] is false (a negative number, or [NaN]),
    [retryWithBackoff] never calls [fn] and throws [undefined]. *)
Theorem retryWithBackoff_no_attempt :
  forall (A : Type) (fn : nat -> completion A) (maxRetries : number)
         (baseDelay : option number) (fuel : nat),
    number_leb (of_nat 0) maxRetries = false ->
    0 < fuel ->
    retryWithBackoff fn (Some maxRetries) baseDelay fuel
    = Some {| retry_completion := Abrupt (ThrownValue Undefined);
              retry_calls := 0;
              retry_sleeps := [] |}.
Proof.
  intros A fn maxRetries baseDelay fuel Hneg Hfuel.
  unfold retryWithBackoff. destruct fuel as [| fuel]; [lia |].
  rewrite retryLoop_step. now rewrite Hneg.
Qed.

(** ** The theorems at concrete inputs *)

(** The priority rule on a message carrying two trigger keywords,
    [invalid] and [not found]: the Validation row, listed first, wins. *)
Lemma handleError_keyword_priority_witness :
  triggers "invalid id: item not found" (["not found"; "does not exist"], NotFound) = true
  /\ handleError sampleNow (ThrownError "invalid id: item not found")
     = toResponse sampleNow (make Validation (Some "invalid id: item not found")).
Proof.
  split; [reflexivity |].
  apply (proj2 (proj2 (handleError_keyword_priority sampleNow
                         "invalid id: item not found"))
           [] (["validation"; "invalid"], Validation) (tl keywordPriority)).
  - reflexivity.
  - intros earlier Hin. destruct Hin.
  - reflexivity.
Defined.

(** The lowercase of [Invalid item id] contains [invalid], so the lowercase
    policy answers Validation (400), whereas the handler, which compares
    the message as it is, answers Internal (500). *)
Lemma handleError_case_sensitive :
  classifyKind toLowerCase "Invalid item id" = Validation
  /\ statusCode (handleError sampleNow (ThrownError "Invalid item id")) = 500%Z
  /\ handleError sampleNow (ThrownError "Invalid item id")
     <> toResponse sampleNow (classify toLowerCase "Invalid item id").
Proof.
  split; [reflexivity | split; [reflexivity |]].
  intros H. apply (f_equal statusCode) in H. vm_compute in H. discriminate H.
Qed.

(** C1.  The handler does not follow the lowercase policy on the error its
    own request helper throws.  For a body that does not parse,
    [getJsonBody] throws [Error "Invalid JSON format"]; the lowercase of
    that message contains [invalid], so the policy selects Validation
    (400); [handleError] compares the message as it is, finds no keyword
    in it and answers Internal (500) wrapping the message, and so does
    [createItem] for such a body. *)
Theorem handleError_invalid_json_format :
  forall now : string,
    getJsonBody sampleParse (sampleEvent "POST" None (Some "invalid json"))
    = Abrupt (ThrownError "Invalid JSON format")
    /\ includes (toLowerCase "Invalid JSON format") "invalid" = true
    /\ classifyKind toLowerCase "Invalid JSON format" = Validation
    /\ kind_status (classifyKind toLowerCase "Invalid JSON format") = 400%Z
    /\ classifyKind (fun text => text) "Invalid JSON format" = Internal
    /\ handleError now (ThrownError "Invalid JSON format")
       = toResponse now
           (InternalServerError
              (Some "Internal server error: Invalid JSON format"))
    /\ statusCode (handleError now (ThrownError "Invalid JSON format")) = 500%Z
    /\ statusCode
         (fst (createItem sampleFormat sampleParse now now now
                 (sampleEvent "POST" None (Some "invalid json")) itemsStore))
       = 500%Z.
Proof.
  intros now. repeat (split; [reflexivity |]). reflexivity.
Qed.

(** The strict create schema, whose rules name no inherited member, on an
    object with an empty name and an extra member. *)
Lemma validateSchema_strict_unknown_fields_witness :
  ownFields (rules createItemSchema)
  /\ errors (validateSchema sampleFormat
               (Obj [("name", Str EmptyString); ("description", Str "b");
                     ("extra", Str "x")])
               {| rules := rules createItemSchema; strict := Some true |})
     = [ {| err_field := "name";
            err_message := "name must be at least 1 characters long";
            err_value := Str EmptyString |};
         {| err_field := "name";
            err_message := "Name cannot be empty";
            err_value := Str EmptyString |};
         {| err_field := "extra";
            err_message := "Unknown field: extra";
            err_value := Str "x" |} ].
Proof.
  assert (Hown : ownFields (rules createItemSchema)).
  { intros rule [<- | [<- | []]]; reflexivity. }
  split; [exact Hown |].
  rewrite (proj1 (proj2 (validateSchema_strict_unknown_fields sampleFormat))
             [("name", Str EmptyString); ("description", Str "b");
              ("extra", Str "x")]
             (rules createItemSchema) Hown).
  reflexivity.
Defined.

(** C2 as stated fails: the errors of the empty-name request are not a
    one-element list. *)
Lemma validateCreateItemRequest_single_error_counterexample :
  ~ exists d : ValidationErrorDetail,
      errors (validateCreateItemRequest sampleFormat
                (Obj [("name", Str EmptyString); ("description", Str "ok")]))
      = [d]
      /\ err_field d = "name"
      /\ includes (err_message d) "empty" = true.
Proof.
  intros [d [H _]]. vm_compute in H. discriminate H.
Qed.

(** C3 as stated fails: the message of the error built from one detail is
    not the comma-joined text alone. *)
Lemma createValidationError_exact_counterexample :
  error_message
    (createValidationError
       [ {| err_field := "name"; err_message := "Name is required";
            err_value := Undefined |} ])
  <> commaJoined
       [ {| err_field := "name"; err_message := "Name is required";
            err_value := Undefined |} ].
Proof.
  intros H. vm_compute in H. discriminate H.
Qed.

(** A string against the [age] rule, of type number with a range. *)
Lemma validateField_type_mismatch_witness :
  isDefined (Str "thirty") = true
  /\ rule_type ageRule = Some TNumber
  /\ runtimeType (Str "thirty") <> Some TNumber
  /\ validateField sampleFormat (Str "thirty") ageRule
     = [ {| err_field := "age";
            err_message := "age must be of type number";
            err_value := Str "thirty" |} ].
Proof.
  assert (Hruntime : runtimeType (Str "thirty") <> Some TNumber)
    by discriminate.
  repeat (split; [reflexivity || exact Hruntime |]).
  exact (proj1 (validateField_type_mismatch sampleFormat (Str "thirty") ageRule
                  TNumber eq_refl eq_refl Hruntime)).
Defined.

(** A string and the create schema. *)
Lemma validateSchema_not_object_witness :
  isObject (Str "not an object") = false
  /\ validateSchema sampleFormat (Str "not an object") createItemSchema
     = {| isValid := false;
          errors := [ {| err_field := "root";
                         err_message := "Data must be an object";
                         err_value := Str "not an object" |} ] |}.
Proof.
  split; [reflexivity |].
  exact (proj1 (validateSchema_not_object sampleFormat (Str "not an object")
                  createItemSchema eq_refl)).
Defined.


(** ** The further properties at concrete inputs *)

Lemma validateField_absent_witness :
  isDefined Null = false
  /\ validateField sampleFormat Null ageRule = [].
Proof.
  split; [reflexivity |].
  exact (proj1 (validateField_absent sampleFormat Null ageRule eq_refl)).
Defined.

(** A six-character name against the rule of the [name] field with
    [maxLength: 0]: accepted, as without the bound, whereas [maxLength: 1]
    rejects it. *)
Lemma validateField_falsy_length_bound_witness :
  number_truthy (of_Z 0) = false
  /\ validateField sampleFormat (Str "thirty")
       (withLengths nameRule (rule_minLength nameRule) (Some (of_Z 0)))
     = validateField sampleFormat (Str "thirty")
         (withLengths nameRule (rule_minLength nameRule) None)
  /\ validateField sampleFormat (Str "thirty")
       (withLengths nameRule (rule_minLength nameRule) None)
     = []
  /\ validateField sampleFormat (Str "thirty")
       (withLengths nameRule (rule_minLength nameRule) (Some (of_Z 1)))
     = [ {| err_field := "name";
            err_message := "name must be no more than 1 characters long";
            err_value := Str "thirty" |} ].
Proof.
  split; [reflexivity |].
  split; [| split; reflexivity].
  exact (proj2 (validateField_falsy_length_bound sampleFormat (Str "thirty")
                  nameRule (of_Z 0) eq_refl)).
Defined.

(** The error the create schema reports for an extra member. *)
Lemma validateSchema_errors_describe_members_witness :
  ownFields (rules createItemSchema)
  /\ err_value {| err_field := "extra"; err_message := "Unknown field: extra";
                  err_value := Str "x" |}
     = lookup [("name", Str "a"); ("description", Str "b"); ("extra", Str "x")]
         (err_field {| err_field := "extra"; err_message := "Unknown field: extra";
                       err_value := Str "x" |}).
Proof.
  assert (Hown : ownFields (rules createItemSchema)).
  { intros rule [<- | [<- | []]]; reflexivity. }
  split; [exact Hown |].
  refine (proj1 (validateSchema_errors_describe_members sampleFormat
                   [("name", Str "a"); ("description", Str "b"); ("extra", Str "x")]
                   createItemSchema
                   {| err_field := "extra"; err_message := "Unknown field: extra";
                      err_value := Str "x" |} Hown _)).
  left. reflexivity.
Defined.

(** The create schema accepts an object with its two members. *)
Lemma validateSchema_validity_witness :
  ownFields (rules createItemSchema)
  /\ isValid (validateSchema sampleFormat
                (Obj [("name", Str "a"); ("description", Str "b")])
                createItemSchema) = true.
Proof.
  assert (Hown : ownFields (rules createItemSchema)).
  { intros rule [<- | [<- | []]]; reflexivity. }
  split; [exact Hown |].
  apply (proj2 (validateSchema_validity sampleFormat
                  (Obj [("name", Str "a"); ("description", Str "b")])
                  createItemSchema Hown)).
  exists [("name", Str "a"); ("description", Str "b")].
  split; [reflexivity | split].
  - intros rule [<- | [<- | []]]; reflexivity.
  - intros _ key [<- | [<- | []]]; simpl; auto.
Defined.

Lemma validateSchema_lenient_ignores_other_members_witness :
  validateSchema sampleFormat (Obj [("limit", Str "5"); ("sort", Str "name")])
    (listQuerySchema sampleFormat)
  = validateSchema sampleFormat (Obj [("limit", Str "5")])
      (listQuerySchema sampleFormat).
Proof.
  apply (validateSchema_lenient_ignores_other_members sampleFormat
           [("limit", Str "5"); ("sort", Str "name")] [("limit", Str "5")]
           (listQuerySchema sampleFormat)).
  - reflexivity.
  - intros rule [<- | [<- | [<- | []]]]; reflexivity.
Defined.

(** A limit above the upper bound, and an offset below the only bound. *)
Lemma parseInteger_clamps_witness :
  (1 <= 100)%Z
  /\ safeInteger 10 /\ safeInteger 1 /\ safeInteger 100
  /\ parseInteger sampleFormat (Str "250") (Some (of_Z 10)) (Some (of_Z 1))
       (Some (of_Z 100))
     = of_Z 100
  /\ parseInteger sampleFormat (Str "-5") (Some (of_Z 10)) (Some (of_Z 1)) None
     = of_Z 1.
Proof.
  assert (H : (1 <= 100)%Z) by lia.
  assert (Hd : safeInteger 10) by (unfold safeInteger; lia).
  assert (Hlo : safeInteger 1) by (unfold safeInteger; lia).
  assert (Hhi : safeInteger 100) by (unfold safeInteger; lia).
  repeat (split; [assumption |]).
  split.
  - exact (proj1 (parseInteger_clamps sampleFormat (Str "250") 10 1 100
                    H Hd Hlo Hhi)).
  - apply (proj2 (parseInteger_clamps sampleFormat (Str "-5") 10 1 100
                    H Hd Hlo Hhi)).
    lia.
Defined.

Lemma retryWithBackoff_run_witness :
  retryWithBackoff sampleCalls (Some (of_nat 3)) None 10
  = Some {| retry_completion := Normal 2;
            retry_calls := 3;
            retry_sleeps := [of_Z 1000; of_Z 2000] |}.
Proof.
  apply (retryWithBackoff_run nat sampleCalls 3 None 1000 10 2).
  - repeat constructor.
  - repeat constructor.
  - apply Nat.leb_le. reflexivity.
  - split; intros H; discriminate H.
  - reflexivity.
  - intros j Hj. destruct j as [| [| j]]; [reflexivity | reflexivity |].
    exfalso. apply (Nat.nlt_0_r j). now apply Nat.succ_lt_mono, Nat.succ_lt_mono.
  - left. reflexivity.
Defined.

Lemma retryWithBackoff_bounded_witness :
  exists run,
    retryWithBackoff sampleCalls (Some (of_nat 1)) None 5 = Some run
    /\ 1 <= retry_calls run <= 1 + 1
    /\ List.length (retry_sleeps run) + 1 = retry_calls run.
Proof.
  apply (retryWithBackoff_bounded nat sampleCalls 1 None 5).
  repeat constructor.
Defined.

Lemma retryWithBackoff_no_attempt_witness :
  number_leb (of_nat 0) (of_Z (-1)) = false
  /\ retryWithBackoff sampleCalls (Some (of_Z (-1))) None 1
     = Some {| retry_completion := Abrupt (ThrownValue Undefined);
               retry_calls := 0;
               retry_sleeps := [] |}.
Proof.
  split; [reflexivity |].
  apply (retryWithBackoff_no_attempt nat sampleCalls (of_Z (-1)) None 1).
  - reflexivity.
  - constructor.
Defined.

Lemma handlers_preflight_witness :
  createItem sampleFormat sampleParse sampleNow sampleNow sampleNow
    (sampleEvent "OPTIONS" None (Some sampleCreateText)) itemsStore
  = ({| statusCode := 200; headers := DEFAULT_CORS_HEADERS; body := EmptyString |},
     itemsStore).
Proof.
  exact (proj1 (proj2 (proj2
           (handlers_preflight sampleFormat sampleParse sampleNow sampleNow sampleNow
              (sampleEvent "OPTIONS" None (Some sampleCreateText)) itemsStore
              eq_refl)))).
Defined.

Lemma createItem_created_witness :
  statusCode (fst (createItem sampleFormat sampleParse sampleNow sampleNow sampleNow
                     (sampleEvent "POST" None (Some sampleCreateText)) itemsStore))
  = 201%Z.
Proof.
  refine (proj2 (createItem_created sampleFormat sampleParse
                   sampleNow sampleNow sampleNow
                   (sampleEvent "POST" None (Some sampleCreateText)) itemsStore
                   sampleCreateText sampleCreateRequest
                   eq_refl eq_refl _ eq_refl eq_refl)).
  intros H. discriminate H.
Defined.

Lemma createItem_without_body_witness :
  statusCode (fst (createItem sampleFormat sampleParse sampleNow sampleNow sampleNow
                     (sampleEvent "POST" None (Some "null")) itemsStore))
  = 404%Z.
Proof.
  refine (proj2 (createItem_without_body sampleFormat sampleParse
                   sampleNow sampleNow sampleNow
                   (sampleEvent "POST" None (Some "null")) itemsStore
                   eq_refl _)).
  right. reflexivity.
Defined.

Lemma createItem_malformed_body_witness :
  statusCode (fst (createItem sampleFormat sampleParse sampleNow sampleNow sampleNow
                     (sampleEvent "POST" None (Some "invalid json")) itemsStore))
  = 500%Z.
Proof.
  refine (proj2 (createItem_malformed_body sampleFormat sampleParse
                   sampleNow sampleNow sampleNow
                   (sampleEvent "POST" None (Some "invalid json")) itemsStore
                   "invalid json" eq_refl eq_refl _ eq_refl)).
  intros H. discriminate H.
Defined.

Lemma createItem_invalid_body_witness :
  statusCode (fst (createItem sampleFormat sampleParse sampleNow sampleNow sampleNow
                     (sampleEvent "POST" None (Some sampleInvalidText)) itemsStore))
  = 400%Z.
Proof.
  refine (proj2 (createItem_invalid_body sampleFormat sampleParse
                   sampleNow sampleNow sampleNow
                   (sampleEvent "POST" None (Some sampleInvalidText)) itemsStore
                   sampleInvalidText sampleInvalidRequest
                   eq_refl eq_refl _ eq_refl eq_refl eq_refl)).
  intros H. discriminate H.
Defined.

Lemma getItem_finds_first_witness :
  statusCode (fst (getItem sampleFormat sampleNow
                     (sampleEvent "GET" (Some "999999") None) itemsStore))
  = 404%Z.
Proof.
  apply (proj2 (getItem_finds_first sampleFormat sampleNow
                  (sampleEvent "GET" (Some "999999") None) itemsStore "999999"
                  eq_refl eq_refl eq_refl)).
  intros item [<- | [<- | [<- | []]]]; reflexivity.
Defined.

Lemma deleteItem_removes_first_witness :
  snd (deleteItem sampleFormat sampleNow
         (sampleEvent "DELETE" (Some "2") None) itemsStore)
  = [nth 0 itemsStore Undefined; nth 2 itemsStore Undefined].
Proof.
  rewrite (proj1 (deleteItem_removes_first sampleFormat sampleNow
                    (sampleEvent "DELETE" (Some "2") None) itemsStore "2"
                    eq_refl eq_refl eq_refl)
             [nth 0 itemsStore Undefined] (nth 1 itemsStore Undefined)
             [nth 2 itemsStore Undefined]).
  - reflexivity.
  - reflexivity.
  - reflexivity.
  - intros y [<- | []]. reflexivity.
Defined.

Lemma updateItem_replaces_first_witness :
  get (nth 1 (snd (updateItem sampleFormat sampleParse sampleNow sampleNow
                     (sampleEvent "PUT" (Some "2") (Some sampleUpdateText))
                     itemsStore)) Undefined) "status"
  = Str "inactive".
Proof.
  rewrite (proj1 (updateItem_replaces_first sampleFormat sampleParse
                    sampleNow sampleNow
                    (sampleEvent "PUT" (Some "2") (Some sampleUpdateText))
                    itemsStore "2" sampleUpdateText sampleUpdateRequest
                    eq_refl eq_refl eq_refl eq_refl
                    (fun H => match H in _ = t
                                    return match t with
                                           | EmptyString => False
                                           | String _ _ => True
                                           end
                              with eq_refl => I end)
                    eq_refl eq_refl)
             [nth 0 itemsStore Undefined] (nth 1 itemsStore Undefined)
             [nth 2 itemsStore Undefined]).
  - reflexivity.
  - reflexivity.
  - reflexivity.
  - intros y [<- | []]. reflexivity.
Defined.

(** After the first item is deleted the store holds the ids 2 and 3; the
    next creation gives the id 3 again. *)
Lemma createItem_id_reuse_witness :
  List.length
    (filter (hasId (Str "3"))
       (snd (createItem sampleFormat sampleParse sampleNow sampleNow sampleNow
               (sampleEvent "POST" None (Some sampleCreateText))
               (tl itemsStore))))
  = 2.
Proof.
  refine (createItem_id_reuse sampleFormat sampleParse
            sampleNow sampleNow sampleNow
            (sampleEvent "POST" None (Some sampleCreateText)) (tl itemsStore)
            sampleCreateText sampleCreateRequest
            eq_refl eq_refl _ eq_refl eq_refl).
  intros H. discriminate H.
Defined.

(** The second active item alone: [limit=1&offset=1&status=active] on the
    three sample items, of which the first and the third are active. *)
Lemma listItems_page_witness :
  isValid (validateListQueryParams sampleFormat
             (getQueryParameters sampleListEvent)) = true
  /\ pageLimit sampleFormat (getQueryParameters sampleListEvent) = 1%Z
  /\ pageOffset sampleFormat (getQueryParameters sampleListEvent) = 1%Z
  /\ listItems sampleFormat sampleNow sampleListEvent itemsStore
     = (createSuccessResponse sampleFormat
          (Arr [ Item (Str "3") (Str "Sample Item 3") (Str "Third sample item")
                   (Str "active") (Str "2024-01-03T00:00:00.000Z")
                   (Str "2024-01-03T00:00:00.000Z") ])
          (Some "Items retrieved successfully") None,
        itemsStore).
Proof.
  repeat (split; [reflexivity |]).
  rewrite (proj1 (listItems_page sampleFormat sampleNow sampleListEvent
                    itemsStore eq_refl eq_refl)).
  reflexivity.
Defined.

Lemma getItem_after_createItem_witness :
  statusCode
    (fst (getItem sampleFormat sampleNow (sampleEvent "GET" (Some "4") None)
            (snd (createItem sampleFormat sampleParse sampleNow sampleNow sampleNow
                    (sampleEvent "POST" None (Some sampleCreateText))
                    itemsStore))))
  = 200%Z.
Proof.
  rewrite (getItem_after_createItem sampleFormat sampleParse
             sampleNow sampleNow sampleNow
             (sampleEvent "POST" None (Some sampleCreateText))
             (sampleEvent "GET" (Some "4") None)
             itemsStore sampleCreateText sampleCreateRequest).
  - reflexivity.
  - reflexivity.
  - reflexivity.
  - intros H. discriminate H.
  - reflexivity.
  - reflexivity.
  - reflexivity.
  - reflexivity.
  - reflexivity.
  - intros y [<- | [<- | [<- | []]]]; reflexivity.
Defined.
